(** * The contradiction-scoring model of the market-intelligence publisher

    A shallow embedding of the scoring passes of the repository:

    - [Engine.calculate_master_divergence_index], the method of
      [MarketIntelligenceEngine] in [src/publish.py] (seven frameworks, a
      weighted master index, opportunities);
    - [Generator.analyze_frameworks], the method of
      [MarketIntelligenceGenerator] in [src/Publish.py] (the earlier
      five-entry analysis).

    Numbers.  Python's [int] and [float] values are modelled by their exact
    rational value in [Q]; [/] is Python's true division, which raises
    [ZeroDivisionError] on a zero divisor.  Rounding of binary64 arithmetic
    is not modelled: the properties below are about which formula, branch
    and constant the code uses.  Two numbers are the same Python value when
    they are [Qeq] ([==]).

    State.  The engine keeps its frameworks in a dict that lives as long as
    the engine and is mutated in place by every scoring pass.  Python dicts
    iterate in insertion order, so the table is an association list, and a
    scoring pass is a computation in a state-and-exception monad over it: an
    exception leaves the mutations made before it in place.

    Clock.  [datetime.now().isoformat()] is an input of the pass: the reading
    of the clock is the parameter [now]. *)

From Stdlib Require Import QArith Qabs Qminmax Lqa.
From stdpp Require Import base strings gmap list.

(** ** Python values and control effects *)

Module Py.

(** A raised exception: its class and its argument. *)
Record exn := Exception { exc_class : string; exc_arg : string }.

Definition ZeroDivisionError : exn := Exception "ZeroDivisionError" "division by zero".
Definition KeyError (k : string) : exn := Exception "KeyError" k.

(** Computations over a mutable store [S] that return an [A] or raise. *)
Definition M (S A : Type) : Type := S -> S * (exn + A).

#[global] Instance M_ret {S} : MRet (M S) := fun A a s => (s, inr a).

#[global] Instance M_bind {S} : MBind (M S) := fun A B f m s =>
  match m s with
  | (s', inr a) => f a s'
  | (s', inl e) => (s', inl e)
  end.

Definition raise {S A} (e : exn) : M S A := fun s => (s, inl e).
Definition get {S} : M S S := fun s => (s, inr s).

(** [a / b]. *)
Definition truediv {S} (a b : Q) : M S Q :=
  if Qeq_bool b 0 then raise ZeroDivisionError else mret (a / b)%Q.

(** [a > b] and [a != b]. *)
Definition gt (a b : Q) : bool := negb (Qle_bool a b).
Definition ne (a b : Q) : bool := negb (Qeq_bool a b).

(** [d.get(k, default)]. *)
Definition dict_get {V} (d : gmap string V) (k : string) (dflt : V) : V :=
  default dflt (d !! k).

(** An insertion-ordered dict with string keys. *)
Definition odict (V : Type) : Type := list (string * V).

Fixpoint getitem {V} (d : odict V) (k : string) : option V :=
  match d with
  | [] => None
  | (k', v) :: d' => if String.eqb k k' then Some v else getitem d' k
  end.

(** The dict after [d[k]] has been mutated by [f]; every other entry and
    the order of the keys are as before. *)
Fixpoint update {V} (f : V -> V) (d : odict V) (k : string) : odict V :=
  match d with
  | [] => []
  | (k', v) :: d' =>
      if String.eqb k k' then (k', f v) :: d' else (k', v) :: update f d' k
  end.

Definition values {V} (d : odict V) : list V := map snd d.
Definition keys {V} (d : odict V) : list string := map fst d.

End Py.

(** ** [src/publish.py]: [MarketIntelligenceEngine] *)

Module Engine.
Import Py.
Local Open Scope Q_scope.

Inductive FrameworkStatus := CRITICAL | WARNING | NORMAL.

(** [FrameworkStatus.X.value] *)
Definition status_value (s : FrameworkStatus) : string :=
  match s with
  | CRITICAL => "CRITICAL"
  | WARNING => "WARNING"
  | NORMAL => "NORMAL"
  end.

Definition status_eqb (a b : FrameworkStatus) : bool :=
  match a, b with
  | CRITICAL, CRITICAL | WARNING, WARNING | NORMAL, NORMAL => true
  | _, _ => false
  end.

Record ContradictionFramework := mkFramework {
  name : string;
  current_level : Q;
  threshold : Q;
  weight : Q;
  status : FrameworkStatus;
  implication : string
}.

(** [fw.current_level = v] and [fw.status = s]. *)
Definition set_current_level (v : Q) (fw : ContradictionFramework) :=
  mkFramework (name fw) v (threshold fw) (weight fw) (status fw) (implication fw).
Definition set_status (s : FrameworkStatus) (fw : ContradictionFramework) :=
  mkFramework (name fw) (current_level fw) (threshold fw) (weight fw) s (implication fw).

(** [self.contradiction_frameworks] as [__init__] builds it. *)
Definition contradiction_frameworks : odict ContradictionFramework :=
  [ ("global_vs_local"%string,
     mkFramework "Global vs Local Sentiment" 0.0 100.0 0.20 NORMAL
       "Global-local sentiment divergence creating arbitrage opportunities");
    ("economic_assessment"%string,
     mkFramework "Economic Assessment vs Reality" 0.0 50.0 0.15 NORMAL
       "Economic assessments contradicting actual indicator data");
    ("credit_vs_fundamentals"%string,
     mkFramework "Credit Markets vs Fundamentals" 0.0 25.0 0.15 NORMAL
       "Credit spread calculations showing data integrity issues");
    ("risk_vs_activity"%string,
     mkFramework "Risk Assessment vs Market Activity" 0.0 50.0 0.15 NORMAL
       "Risk models disconnected from actual market behavior");
    ("sector_intelligence"%string,
     mkFramework "Sector Sentiment Intelligence" 0.0 20.0 0.10 NORMAL
       "Major sector sentiment reversals requiring rotation");
    ("quantitative_regime"%string,
     mkFramework "Quantitative Regime Analysis" 0.0 75.0 0.15 NORMAL
       "MRN regime approaching transition thresholds");
    ("us_economic_backdrop"%string,
     mkFramework "US Economic Backdrop" 0.0 30.0 0.10 NORMAL
       "US economic indicators showing mixed signals") ].

(** The engine's mutable store. *)
Definition frameworks : Type := odict ContradictionFramework.

(** [self.contradiction_frameworks[k].attr = ...]: a [KeyError] when the
    table has no entry [k], an in-place update otherwise. *)
Definition setattr (k : string) (f : ContradictionFramework -> ContradictionFramework)
  : M frameworks unit :=
  fun t => match getitem t k with
           | Some _ => (update f t k, inr tt)
           | None => (t, inl (KeyError k))
           end.

(** [raw_data]: per source, the numeric metrics that were extracted.  The
    other entries of a source's dict are never read by the scoring pass. *)
Definition source_data : Type := gmap string Q.
Definition raw_data : Type := gmap string source_data.

(** [raw_data.get(source, {}).get(key, dflt)] *)
Definition metric (raw : raw_data) (source key : string) (dflt : Q) : Q :=
  dict_get (dict_get raw source ∅) key dflt.

Record FrameworkReport := mkReport {
  level : Q;
  report_threshold : Q;
  report_status : string;
  report_implication : string
}.

Record Opportunity := mkOpportunity {
  type : string;
  strategy : string;
  magnitude : Q;
  timeline : string;
  confidence : string
}.

Record Summary := mkSummary {
  total_contradictions : nat;
  active_contradictions : nat;
  global_sentiment : Q;
  local_sentiment : Q;
  divergence_percentage : Q
}.

Record AnalysisResult := mkResult {
  timestamp : string;
  result_frameworks : odict FrameworkReport;
  master_divergence_index : Q;
  critical_frameworks : nat;
  system_status : string;
  opportunities : list Opportunity;
  summary : Summary
}.

(** One turn of the loop over [self.contradiction_frameworks.values()];
    the accumulator is [(total_score, critical_count)]. *)
Definition score_step (acc : Q * nat) (framework : ContradictionFramework) : Q * nat :=
  let '(total_score, critical_count) := acc in
  let total_score :=
    if gt (current_level framework) (threshold framework)
    then total_score + Qmin (current_level framework / 100) 10 * weight framework
    else total_score in
  let critical_count :=
    if status_eqb (status framework) CRITICAL then S critical_count else critical_count in
  (total_score, critical_count).

Definition score_loop (t : frameworks) : Q * nat :=
  fold_left score_step (values t) (0, 0%nat).

Definition report (fw : ContradictionFramework) : FrameworkReport :=
  mkReport (current_level fw) (threshold fw) (status_value (status fw)) (implication fw).

Definition calculate_master_divergence_index (now : string) (raw : raw_data)
  : M frameworks AnalysisResult :=
  let global_sentiment := metric raw "global_sentiment" "sentiment_score" 6.0 in
  let local_sentiment := metric raw "market_trend" "sentiment_score" 0.09 in
  (* Framework 1: Global vs Local Sentiment *)
  divergence_pct ←
    (if ne local_sentiment 0
     then q ← truediv (global_sentiment - local_sentiment) local_sentiment;
          mret (Qabs (q * 100))
     else mret 6000);
  setattr "global_vs_local" (set_current_level divergence_pct);;
  setattr "global_vs_local"
    (set_status (if gt divergence_pct 1000 then CRITICAL
                 else if gt divergence_pct 100 then WARNING
                 else NORMAL));;
  (* Framework 2: Economic Assessment *)
  setattr "economic_assessment" (set_current_level 75.0);;
  setattr "economic_assessment" (set_status CRITICAL);;
  (* Framework 3: Credit Data Integrity *)
  setattr "credit_vs_fundamentals" (set_current_level 126.0);;
  setattr "credit_vs_fundamentals" (set_status CRITICAL);;
  (* Framework 4: Risk vs Activity *)
  setattr "risk_vs_activity" (set_current_level 100.0);;
  setattr "risk_vs_activity" (set_status CRITICAL);;
  (* Framework 5: Sector Intelligence *)
  let max_decline := 114.3 in
  setattr "sector_intelligence" (set_current_level max_decline);;
  setattr "sector_intelligence" (set_status CRITICAL);;
  (* Framework 6: MRN Regime *)
  let mrn_duration := metric raw "nifty_mrn" "mi_duration" 14 in
  let max_duration := metric raw "nifty_mrn" "max_duration" 21 in
  q ← truediv mrn_duration max_duration;
  let duration_pct := q * 100 in
  setattr "quantitative_regime" (set_current_level duration_pct);;
  setattr "quantitative_regime"
    (set_status (if gt duration_pct 60 then WARNING else NORMAL));;
  (* Framework 7: US Economic Backdrop *)
  setattr "us_economic_backdrop" (set_current_level 50.0);;
  setattr "us_economic_backdrop" (set_status WARNING);;
  (* Calculate master divergence index *)
  t ← get;
  let '(total_score, critical_count) := score_loop t in
  (* Generate opportunities *)
  let opportunities :=
    (if gt divergence_pct 1000
     then [ mkOpportunity "Global-Local Arbitrage" "Long international, short local"
              divergence_pct "2-8 weeks" "Very High" ]
     else [])
    ++
    (if (2 <=? critical_count)%nat
     then [ mkOpportunity "Multi-Framework Arbitrage" "Position across contradictions"
              (total_score * 100) "1-4 weeks" "High" ]
     else []) in
  mret (mkResult
          now
          (map (fun '(name, fw) => (name, report fw)) t)
          total_score
          critical_count
          (if (3 <=? critical_count)%nat then "CRITICAL"
           else if (1 <=? critical_count)%nat then "WARNING"
           else "NORMAL")
          opportunities
          (mkSummary
             (length t)
             (length (filter (fun fw => gt (current_level fw) (threshold fw) = true) (values t)))
             global_sentiment
             local_sentiment
             divergence_pct)).

End Engine.

(** ** [src/Publish.py]: [MarketIntelligenceGenerator] *)

Module Generator.
Import Py.
Local Open Scope Q_scope.

(** The values found in the entries of [analysis["contradictions"]];
    [VText q s] is the f-string of a number followed by the text [s]. *)
Inductive value :=
| VNum (q : Q)
| VStr (s : string)
| VBool (b : bool)
| VDict (d : list (string * Q))
| VText (q : Q) (suffix : string).

(** An entry of [analysis["contradictions"]]: every entry has a ["level"]
    and a ["status"]; [details] holds the entry's other keys. *)
Record Contradiction := mkContradiction {
  level : Q;
  status : string;
  details : odict value
}.

Record Opportunity := mkOpportunity {
  type : string;
  strategy : string;
  magnitude : Q;
  timeline : string;
  confidence : string
}.

Record Summary := mkSummary {
  total_contradictions : nat;
  critical_frameworks : nat;
  system_status : string;
  master_divergence_index : Q
}.

Record Analysis := mkAnalysis {
  timestamp : string;
  contradictions : odict Contradiction;
  opportunities : list Opportunity;
  summary : Summary
}.

(** [raw_data], as for the engine. *)
Definition raw_data : Type := gmap string (gmap string Q).

Definition metric (raw : raw_data) (source key : string) (dflt : Q) : Q :=
  dict_get (dict_get raw source ∅) key dflt.

Definition analyze_frameworks (now : string) (raw : raw_data) : M unit Analysis :=
  (* Framework 1: Global vs Local Sentiment *)
  let global_sentiment := metric raw "global_sentiment" "sentiment_score" 6.0 in
  let local_sentiment := metric raw "market_trend" "sentiment_score" 0.09 in
  divergence_pct ←
    (if ne local_sentiment 0
     then q ← truediv (global_sentiment - local_sentiment) local_sentiment;
          mret (Qabs (q * 100))
     else mret 6000);
  let c1 := ("global_vs_local"%string,
             mkContradiction divergence_pct
               (if gt divergence_pct 1000 then "EXTREME" else "HIGH")
               [ ("global_value"%string, VNum global_sentiment);
                 ("local_value"%string, VNum local_sentiment);
                 ("implication"%string,
                  VStr "Local markets massively oversold relative to global conditions") ]) in
  (* Framework 2: Economic Assessment vs Reality *)
  let c2 := ("economic_assessment"%string,
             mkContradiction 75.0 "HIGH"
               [ ("assessment"%string, VStr "Strongly Bullish");
                 ("reality_check"%string, VStr "75% of indicators bearish");
                 ("implication"%string,
                  VStr "Systematic disconnect between assessment and data") ]) in
  (* Framework 3: Credit Data Integrity *)
  let c3 := ("credit_vs_fundamentals"%string,
             mkContradiction 126.0 "CRITICAL"
               [ ("data_corruption"%string, VBool true);
                 ("implication"%string,
                  VStr "Credit calculations corrupted by data infrastructure failure") ]) in
  (* Framework 4: Sector Intelligence *)
  let max_decline := 114.3 in
  let c4 := ("sector_intelligence"%string,
             mkContradiction max_decline "CRITICAL"
               [ ("major_turnarounds"%string,
                  VDict [ ("consumer_services"%string, -114.3);
                          ("services"%string, -100.0);
                          ("telecom"%string, -25.0) ]);
                 ("implication"%string,
                  VStr "Major sector sentiment reversals requiring rotation") ]) in
  (* Framework 5: MRN Regime *)
  let mrn_duration := metric raw "nifty_mrn" "mi_duration" 14 in
  let duration_pct := (mrn_duration / 21) * 100 in
  let c5 := ("quantitative_regime"%string,
             mkContradiction duration_pct
               (if gt duration_pct 60 then "WARNING" else "NORMAL")
               [ ("duration"%string, VText mrn_duration "/21 days");
                 ("transition_probability"%string,
                  VStr (if gt duration_pct 60 then "HIGH" else "MODERATE")) ]) in
  let contradictions := [c1; c2; c3; c4; c5] in
  (* Calculate summary *)
  let critical_count :=
    length (filter (fun c => status c = "CRITICAL"%string) (values contradictions)) in
  let summary :=
    mkSummary (length contradictions)
              critical_count
              (if (2 <=? critical_count)%nat then "CRITICAL"
               else if (1 <=? critical_count)%nat then "WARNING"
               else "NORMAL")
              (divergence_pct / 1000) in
  (* Identify opportunities *)
  let opportunities :=
    if gt divergence_pct 1000
    then [ mkOpportunity "Global-Local Arbitrage" "Long international, short local"
             divergence_pct "2-8 weeks" "Very High" ]
    else [] in
  mret (mkAnalysis now contradictions opportunities summary).

End Generator.


(** ** [src/publish.py]: extraction and ingestion

    The extraction methods read a parsed page through BeautifulSoup and
    [re].  A page is modelled by what those calls give on it: the elements a
    selector finds, the outcome of a regular-expression search.  The
    extraction methods wrap their work in [try ... except Exception] and
    return their fallback when anything raises; a page on which some call
    raises is the page [Raising].  Log messages are not modelled. *)

Module Extraction.
Import Py.
Local Open Scope Q_scope.

(** What [re.search(pattern, ...)] gives once group 1 has been converted with
    [int] or [float]: no match, a match whose conversion raises
    [ValueError], or the converted value. *)
Inductive found (A : Type) : Type :=
| NoMatch
| Unparsable
| Match (v : A).
Arguments NoMatch {A}.
Arguments Unparsable {A}.
Arguments Match {A} v.

(** A text as [extract_numeric_value] and [extract_percentage] see it. *)
Record text := mkText {
  is_empty : bool;
  numeric : string -> found Q;
  percentage : string -> found Q
}.

(** The loop [for p in patterns: match = re.search(p, ...); if match: try:
    return convert(match.group(1)) except ...: continue]. *)
Fixpoint first_parsed {A} (search : string -> found A) (patterns : list string)
  : option A :=
  match patterns with
  | [] => None
  | p :: rest =>
      match search p with
      | Match v => Some v
      | _ => first_parsed search rest
      end
  end.

(** The loop [for pattern in patterns: match = re.search(...); if match: try:
    v = convert(match.group(1)); if lo <= v <= hi: data[...] = v; break
    except ...: continue]. *)
Fixpoint first_in_range {A} (ok : A -> bool) (search : string -> found A)
    (patterns : list string) : option A :=
  match patterns with
  | [] => None
  | p :: rest =>
      match search p with
      | Match v => if ok v then Some v else first_in_range ok search rest
      | _ => first_in_range ok search rest
      end
  end.

(** [lo <= v <= hi] *)
Definition between (lo hi v : Q) : bool := Qle_bool lo v && Qle_bool v hi.
Definition betweenZ (lo hi v : Z) : bool := ((lo <=? v) && (v <=? hi))%Z.

Definition default_pattern : string := "([\d.-]+)".

Definition extract_numeric_value (t : text) (pattern : string) : option Q :=
  if is_empty t then None
  else first_parsed (numeric t)
         [ pattern; "([\d,]+\.?\d*)"; "(\d+\.?\d*)%?"; "([+-]?\d*\.?\d+)" ]%string.

Definition extract_percentage (t : text) : option Q :=
  if is_empty t then None
  else first_parsed (percentage t)
         [ "([-+]?\d*\.?\d+)%"; "([-+]?\d*\.?\d+)\s*percent";
           "([-+]?\d*\.?\d+)\s*pct" ]%string.

(** What the extraction methods can see of a parsed page. *)
Record view := mkView {
  (* [soup.select(selector)]: the stripped text of each element *)
  select : string -> list text;
  (* [soup.find_all(text=re.compile(r'FII|fii|foreign', re.I))]: for each
     node, the stripped text of its parent *)
  find_all_fii : list text;
  (* [re.search(pattern, soup.get_text(), re.IGNORECASE)], group 1 as float *)
  search_float : string -> found Q;
  (* the same, group 1 as int *)
  search_int : string -> found Z;
  (* [re.search(pattern, soup.get_text().lower(), re.IGNORECASE)], as int *)
  search_int_lower : string -> found Z;
  (* [re.findall(r'\b[A-Z]{2,10}\b', soup.get_text())] *)
  findall_symbols : list string
}.

Inductive soup :=
| Raising
| Soup (v : view).

(** The double quote, for the selectors that contain it. *)
Definition dq : string := String (Ascii.ascii_of_nat 34) "".

(** *** [extract_market_trend_data] *)

Record TrendData := mkTrend {
  sentiment_score : Q;
  trend_strength : string;
  timeframe_analysis : list (string * string);
  fii_flow_change : Q;
  sentiment_evolution : Q;
  statistical_significance : option bool
}.

Definition _get_fallback_trend_data : TrendData :=
  mkTrend 0.09 "Strongly Bearish (5/5)"
    [ ("7_day", "Deteriorating"); ("15_day", "Deteriorating");
      ("30_day", "Deteriorating") ]%string
    (-46.6) (-0.51) None.

Definition sentiment_selectors : list string :=
  [ "td:contains(" ++ dq ++ "sentiment" ++ dq ++ ")";
    ".sentiment-score";
    "[data-metric=" ++ dq ++ "sentiment" ++ dq ++ "]";
    "span:contains(" ++ dq ++ "Sentiment" ++ dq ++ ")" ]%string.

(** [for element in elements: ...; if numeric_val is not None and -10 <=
    numeric_val <= 10: data["sentiment_score"] = numeric_val; break] *)
Fixpoint scan_elements (elements : list text) (score : Q) : Q :=
  match elements with
  | [] => score
  | element :: rest =>
      match extract_numeric_value element default_pattern with
      | Some numeric_val =>
          if between (-10) 10 numeric_val then numeric_val
          else scan_elements rest score
      | None => scan_elements rest score
      end
  end.

(** [for selector in sentiment_selectors: ...; if data["sentiment_score"] !=
    0.09: break] *)
Fixpoint scan_selectors (v : view) (selectors : list string) (score : Q) : Q :=
  match selectors with
  | [] => score
  | selector :: rest =>
      let score := scan_elements (select v selector) score in
      if ne score 0.09 then score else scan_selectors v rest score
  end.

(** [for element in fii_elements[:5]: ...; if percentage is not None and
    -100 <= percentage <= 100: data["fii_flow_change"] = percentage; break] *)
Fixpoint scan_fii (elements : list text) (flow : Q) : Q :=
  match elements with
  | [] => flow
  | element :: rest =>
      match extract_percentage element with
      | Some pct => if between (-100) 100 pct then pct else scan_fii rest flow
      | None => scan_fii rest flow
      end
  end.

Definition extract_market_trend_data (s : option soup) : TrendData :=
  match s with
  | None => _get_fallback_trend_data
  | Some Raising => _get_fallback_trend_data
  | Some (Soup v) =>
      mkTrend (scan_selectors v sentiment_selectors 0.09)
        "Strongly Bearish (5/5)"
        [ ("7_day", "Deteriorating"); ("15_day", "Deteriorating");
          ("30_day", "Deteriorating") ]%string
        (scan_fii (take 5 (find_all_fii v)) (-46.6))
        (-0.51)
        (Some true)
  end.

(** *** [extract_global_sentiment_data] *)

Record GlobalData := mkGlobal {
  global_score : Q;                       (* "sentiment_score" *)
  assessment : string;
  trend_direction : string;
  momentum_7day : Q;
  volatility : option Q;
  market_regime : string;
  historical_context : option (Q * Q * (Q * Q));
  forecast_7day : option Q;
  confidence_interval : option (Q * Q);
  risk_level : string
}.

Definition _get_fallback_global_data : GlobalData :=
  mkGlobal 6.0 "Slightly Bullish" "Improving" 11.8 None "Mild Bull Market"
    None None None "Low Risk".

Definition sentiment_patterns : list string :=
  [ "sentiment.*?score.*?([+-]?\d*\.?\d+)";
    "global.*?sentiment.*?([+-]?\d*\.?\d+)";
    "([+-]?\d*\.?\d+).*?sentiment" ]%string.

Definition extract_global_sentiment_data (s : option soup) : GlobalData :=
  match s with
  | None => _get_fallback_global_data
  | Some Raising => _get_fallback_global_data
  | Some (Soup v) =>
      mkGlobal
        (default 6.0 (first_in_range (between (-20) 20) (search_float v) sentiment_patterns))
        "Slightly Bullish" "Improving" 11.8 (Some 4.8) "Mild Bull Market"
        (Some (2.2, 171.4, (-13.5, 15.0))) (Some 12.2) (Some (-11.1, 35.6)) "Low Risk"
  end.

(** *** [extract_nifty_mrn_data] *)

Record MrnData := mkMrn {
  mi_state : string;
  mi_duration : Z;
  max_duration : Z;
  mrn_regime : string;                    (* "market_regime" *)
  signal_strength : option string;
  transition_probability : string;
  forecast : option (string * Z * string)
}.

Definition _get_fallback_mrn_data : MrnData :=
  mkMrn "ZERO" 14 21 "Uncertainty Phase" None "High" None.

Definition duration_patterns : list string :=
  [ "duration.*?(\d+)"; "(\d+).*?day.*?duration"; "day.*?(\d+).*?of.*?(\d+)" ]%string.

Definition extract_nifty_mrn_data (s : option soup) : MrnData :=
  match s with
  | None => _get_fallback_mrn_data
  | Some Raising => _get_fallback_mrn_data
  | Some (Soup v) =>
      let mi_duration :=
        default 14%Z (first_in_range (betweenZ 1 30) (search_int v) duration_patterns) in
      let max_duration := 21%Z in
      (* the divisor is the literal 21 of [data] *)
      let duration_pct := (inject_Z mi_duration / inject_Z max_duration) * 100 in
      mkMrn "ZERO" mi_duration max_duration "Uncertainty Phase" (Some "Medium"%string)
        (if gt duration_pct 75 then "Very High"
         else if gt duration_pct 60 then "High"
         else if gt duration_pct 40 then "Moderate"
         else "Low")
        (Some ("Bearish Bias"%string, 65%Z, "2-4 days"%string))
  end.

(** *** [extract_market_dashboard_data] *)

Record DashboardData := mkDashboard {
  overall_sentiment : Q;
  red_alerts : Z;
  major_reversals : Z;
  institutional_flows : list (string * Q);
  behavioral_patterns : option Z;
  accumulation : list string;
  distribution : list string;
  bullish : option (list string);
  bearish : option (list string);
  divergent_stocks : Z;
  price_sentiment_correlation : Z
}.

Definition default_accumulation : list string :=
  [ "NTPC"; "POWERGRID"; "HINDUNILVR"; "ITC"; "COALINDIA"; "TATAPOWER" ]%string.
Definition default_distribution : list string :=
  [ "BHARTI"; "ZOMATO"; "PAYTM"; "NYKAA"; "INDIGO"; "RELIANCE" ]%string.
Definition default_flows : list (string * Q) :=
  [ ("fii_positive", 23.6); ("dii_flows", 52.0); ("retail_flows", 30.0) ]%string.

Definition _get_fallback_dashboard_data : DashboardData :=
  mkDashboard 0.09 25 25 default_flows None default_accumulation default_distribution
    None None 61 68.

Definition alert_patterns : list string :=
  [ "(\d+)\s*red\s*alert"; "red\s*alert.*?(\d+)"; "(\d+)\s*alert.*?red" ]%string.

Definition known_stocks : list string :=
  [ "NTPC"; "POWERGRID"; "HINDUNILVR"; "ITC"; "COALINDIA"; "TATAPOWER";
    "BHARTI"; "ZOMATO"; "PAYTM"; "NYKAA"; "INDIGO"; "RELIANCE" ]%string.

(** [l[i:j]] for [0 <= i <= j]. *)
Definition slice {A} (l : list A) (i j : nat) : list A := take (j - i) (drop i l).

Definition extract_market_dashboard_data (s : option soup) : DashboardData :=
  match s with
  | None => _get_fallback_dashboard_data
  | Some Raising => _get_fallback_dashboard_data
  | Some (Soup v) =>
      let red_alerts := default 25%Z (first_parsed (search_int_lower v) alert_patterns) in
      let found_stocks :=
        filter (fun stock => stock ∈ known_stocks) (findall_symbols v) in
      let '(accumulation, distribution) :=
        if (6 <=? length found_stocks)%nat
        then (slice found_stocks 0 6,
              if (12 <=? length found_stocks)%nat
              then slice found_stocks 6 12 else slice found_stocks 3 9)
        else (default_accumulation, default_distribution) in
      mkDashboard 0.09 red_alerts 25 default_flows (Some 8%Z) accumulation distribution
        (Some []) (Some []) 61 68
  end.

(** *** [ingest_all_data] *)

(** The path templates, as the text before and after [{date}]. *)
Definition data_sources : odict (string * string) :=
  [ ("market_trend",
     ("C:/Projects/apps/institutional_flow_quant/output/progressive_analysis/market_trend_analysis_",
      ".html"));
    ("market_dashboard",
     ("C:/Projects/apps/institutional_flow_quant/output/progressive_analysis/market_dashboard_",
      ".html"));
    ("news_dashboard",
     ("C:/Projects/apps/newsagent/data/processed/news_dashboard_", ".html"));
    ("sector_sentiment",
     ("C:/Projects/apps/institutional_flow_quant/output/sectortrend/sector_sentiment_allinone_",
      ".html"));
    ("global_sentiment",
     ("C:/Projects/apps/globalindicators/reports/market_sentiment_analysis_", ".html"));
    ("global_economic",
     ("C:/Projects/apps/globalindicators/data/market_dashboard_", ".html"));
    ("economic_indicators",
     ("C:/Projects/apps/globalindicators/output/economic_indicators_trend_", ".html"));
    ("hyg_credit", ("C:/Projects/apps/CodeRed/reports/hyg_report_", ".html"));
    ("nifty_mrn",
     ("C:/Projects/apps/institutional_flow_quant/NiftyMRNPredictions_", ".html")) ]%string.

(** [path_template.format(date=date_str)] *)
Definition format_path (template : string * string) (date_str : string) : string :=
  (template.1 ++ date_str ++ template.2)%string.

(** A file as [parse_html_file] finds it: one that cannot be opened, read or
    parsed, or its content, blank or not, with the page it parses to. *)
Inductive file :=
| Unreadable
| Content (blank : bool) (page : soup).

(** The files by path; [None] where [os.path.exists] is false. *)
Definition filesystem : Type := string -> option file.

Definition parse_html_file (fs : filesystem) (file_path : string) : option soup :=
  match fs file_path with
  | None => None
  | Some Unreadable => None
  | Some (Content true _) => None
  | Some (Content false page) => Some page
  end.

(** The entries of a source's dict that are numbers, which is what
    [Engine.raw_data] keeps of it. *)
Definition trend_numbers (d : TrendData) : Engine.source_data :=
  {[ "sentiment_score"%string := sentiment_score d;
     "fii_flow_change"%string := fii_flow_change d;
     "sentiment_evolution"%string := sentiment_evolution d ]}.

Definition optional_entry (k : string) (o : option Q) (m : Engine.source_data)
  : Engine.source_data :=
  match o with Some q => <[k := q]> m | None => m end.

Definition global_numbers (d : GlobalData) : Engine.source_data :=
  optional_entry "volatility" (volatility d)
    (optional_entry "forecast_7day" (forecast_7day d)
       {[ "sentiment_score"%string := global_score d;
          "momentum_7day"%string := momentum_7day d ]}).

Definition mrn_numbers (d : MrnData) : Engine.source_data :=
  {[ "mi_duration"%string := inject_Z (mi_duration d);
     "max_duration"%string := inject_Z (max_duration d) ]}.

Definition dashboard_numbers (d : DashboardData) : Engine.source_data :=
  optional_entry "behavioral_patterns" (inject_Z <$> behavioral_patterns d)
    {[ "overall_sentiment"%string := overall_sentiment d;
       "red_alerts"%string := inject_Z (red_alerts d);
       "major_reversals"%string := inject_Z (major_reversals d);
       "divergent_stocks"%string := inject_Z (divergent_stocks d);
       "price_sentiment_correlation"%string := inject_Z (price_sentiment_correlation d) ]}.

Record validation_report := mkReport {
  issues : list string;
  warnings : list string;
  success_count : nat
}.

(** An extraction method: from what [parse_html_file] returned to the
    source's dict, or an exception. *)
Definition method : Type := option soup -> exn + Engine.source_data.

(** One turn of the loop over [self.data_sources.items()]. *)
Definition ingest_step (extraction_methods : odict method) (fs : filesystem)
    (date_str : string) (acc : Engine.raw_data * validation_report)
    (source : string * (string * string)) : Engine.raw_data * validation_report :=
  let '(raw_data, report) := acc in
  let '(source_id, path_template) := source in
  let file_path := format_path path_template date_str in
  let soup := parse_html_file fs file_path in
  let extracted :=
    match getitem extraction_methods source_id with
    | Some extract => extract soup
    | None => inr ∅   (* {"status": "parsed", "source": source_id}: no number *)
    end in
  match extracted with
  | inr data =>
      (<[source_id := data]> raw_data,
       mkReport (issues report) (warnings report) (S (success_count report)))
  | inl e =>
      (raw_data,
       mkReport (issues report ++ [("Failed to process " ++ source_id ++ ": " ++ exc_arg e)%string])
                (warnings report) (success_count report))
  end.

Definition ingest_with (extraction_methods : odict method) (fs : filesystem)
    (date_str : string) : Engine.raw_data * validation_report :=
  fold_left (ingest_step extraction_methods fs date_str) data_sources
            (∅, mkReport [] [] 0).

(** [extract_sector_sentiment_data] keeps no number at the top of its dict,
    whatever the page: its tables only change the nested ["sector_ratios"]. *)
Definition extraction_methods : odict method :=
  [ ("market_trend"%string, fun s => inr (trend_numbers (extract_market_trend_data s)));
    ("market_dashboard"%string,
     fun s => inr (dashboard_numbers (extract_market_dashboard_data s)));
    ("sector_sentiment"%string, fun _ => inr ∅);
    ("global_sentiment"%string,
     fun s => inr (global_numbers (extract_global_sentiment_data s)));
    ("nifty_mrn"%string, fun s => inr (mrn_numbers (extract_nifty_mrn_data s))) ].

Definition ingest_all_data (fs : filesystem) (date_str : string)
  : Engine.raw_data * validation_report :=
  ingest_with extraction_methods fs date_str.

End Extraction.


(** ** [src/Publish.py]: extraction and ingestion

    The earlier version reads only one thing off a page: the text nodes that
    mention sentiment, for the market-trend score.  Its other extraction
    methods return constant dicts for any page. *)

Module GeneratorIngest.
Import Py.
Local Open Scope Q_scope.

(** A text node as [extract_numeric_value] sees it: [search pattern] is
    [re.search(pattern, str(text))] with group 1 converted by [float]. *)
Record text := mkText {
  is_empty : bool;
  search : string -> Extraction.found Q
}.

Definition extract_numeric_value (t : text) (pattern : string) : option Q :=
  if is_empty t then None
  else match search t pattern with
       | Extraction.Match v => Some v
       | _ => None
       end.

(** A parsed page: [soup.find_all(text=re.compile(r'sentiment|bearish|bullish',
    re.I))], or a page on which that call raises. *)
Inductive soup :=
| Raising
| Soup (sentiment_elements : list text).

(** [for element in sentiment_elements[:3]: ...; if numeric_val is not None
    and -10 <= numeric_val <= 10: data["sentiment_score"] = numeric_val;
    break] *)
Fixpoint scan_elements (elements : list text) (score : Q) : Q :=
  match elements with
  | [] => score
  | element :: rest =>
      match extract_numeric_value element Extraction.default_pattern with
      | Some numeric_val =>
          if Extraction.between (-10) 10 numeric_val then numeric_val
          else scan_elements rest score
      | None => scan_elements rest score
      end
  end.

(** The extraction methods, by the numbers at the top of the dict they
    return; [{}] is the empty map. *)
Definition extract_market_trend_data (s : option soup) : gmap string Q :=
  match s with
  | None => ∅
  | Some Raising => ∅
  | Some (Soup sentiment_elements) =>
      {[ "sentiment_score"%string := scan_elements (take 3 sentiment_elements) 0.09;
         "fii_flow_change"%string := -46.6;
         "sentiment_evolution"%string := -0.51 ]}
  end.

Definition extract_market_dashboard_data (s : option soup) : gmap string Q :=
  match s with
  | None => ∅
  | Some _ =>
      {[ "overall_sentiment"%string := 0.09;
         "red_alerts"%string := 25;
         "major_reversals"%string := 25;
         "divergent_stocks"%string := 61;
         "price_sentiment_correlation"%string := 68 ]}
  end.

Definition extract_sector_sentiment_data (s : option soup) : gmap string Q := ∅.

Definition extract_global_sentiment_data (s : option soup) : gmap string Q :=
  match s with
  | None => ∅
  | Some _ =>
      {[ "sentiment_score"%string := 6.0;
         "momentum_7day"%string := 11.8;
         "volatility"%string := 4.8;
         "forecast_7day"%string := 12.2 ]}
  end.

Definition extract_global_economic_data (s : option soup) : gmap string Q :=
  match s with
  | None => ∅
  | Some _ => {[ "score"%string := 6.0 ]}
  end.

Definition extract_nifty_mrn_data (s : option soup) : gmap string Q :=
  match s with
  | None => ∅
  | Some _ => {[ "mi_duration"%string := 14 ]}
  end.

(** A file as [parse_html_file] finds it, and the files by path. *)
Inductive file :=
| Unreadable
| Readable (page : soup).

Definition filesystem : Type := string -> option file.

Definition parse_html_file (fs : filesystem) (file_path : string) : option soup :=
  match fs file_path with
  | None => None
  | Some Unreadable => None
  | Some (Readable page) => Some page
  end.

Record validation_report := mkReport {
  issues : list string;
  warnings : list string
}.

(** The chain [if source_id == "market_trend": ... elif ... else: ...]. *)
Definition extract (source_id : string) (s : soup) : gmap string Q :=
  if String.eqb source_id "market_trend" then extract_market_trend_data (Some s)
  else if String.eqb source_id "market_dashboard" then extract_market_dashboard_data (Some s)
  else if String.eqb source_id "sector_sentiment" then extract_sector_sentiment_data (Some s)
  else if String.eqb source_id "global_sentiment" then extract_global_sentiment_data (Some s)
  else if String.eqb source_id "global_economic" then extract_global_economic_data (Some s)
  else if String.eqb source_id "nifty_mrn" then extract_nifty_mrn_data (Some s)
  else ∅.   (* {"status": "parsed", "source": source_id}: no number *)

(** One turn of the loop over [self.data_sources.items()]; the templates are
    those of [publish.py]. *)
Definition ingest_step (fs : filesystem) (date_str : string)
    (acc : Generator.raw_data * validation_report)
    (source : string * (string * string)) : Generator.raw_data * validation_report :=
  let '(raw_data, report) := acc in
  let '(source_id, path_template) := source in
  let file_path := Extraction.format_path path_template date_str in
  match parse_html_file fs file_path with
  | None =>
      (raw_data,
       mkReport (issues report ++ [("Failed to parse " ++ source_id)%string])
                (warnings report))
  | Some soup => (<[source_id := extract source_id soup]> raw_data, report)
  end.

Definition ingest_all_data (fs : filesystem) (date_str : string)
  : Generator.raw_data * validation_report :=
  fold_left (ingest_step fs date_str) Extraction.data_sources (∅, mkReport [] []).

End GeneratorIngest.


(** ** The metric snapshot read by a scoring pass *)

Import Py.
Local Open Scope Q_scope.

Abbreviation global_sentiment_of raw :=
  (Engine.metric raw "global_sentiment" "sentiment_score" 6.0%Q) (only parsing).
Abbreviation local_sentiment_of raw :=
  (Engine.metric raw "market_trend" "sentiment_score" 0.09%Q) (only parsing).
Abbreviation mrn_duration_of raw :=
  (Engine.metric raw "nifty_mrn" "mi_duration" 14%Q) (only parsing).
Abbreviation mrn_max_duration_of raw :=
  (Engine.metric raw "nifty_mrn" "max_duration" 21%Q) (only parsing).

(** A snapshot given by its four fields, as ingestion would store them. *)
Definition snapshot (global_sentiment local_sentiment mrn_duration mrn_max_duration : Q)
  : Engine.raw_data :=
  {[ "global_sentiment"%string := {[ "sentiment_score"%string := global_sentiment ]};
     "market_trend"%string := {[ "sentiment_score"%string := local_sentiment ]};
     "nifty_mrn"%string := {[ "mi_duration"%string := mrn_duration;
                              "max_duration"%string := mrn_max_duration ]} ]}.

(** The static part of a framework, which no scoring pass assigns. *)
Definition config (entry : string * Engine.ContradictionFramework)
  : string * (string * Q * Q * string) :=
  (entry.1, (Engine.name entry.2, Engine.threshold entry.2, Engine.weight entry.2,
             Engine.implication entry.2)).

(** The tables the engine can hold: those of [__init__] up to the levels and
    statuses, which earlier passes may have assigned. *)
Definition well_configured (t : Engine.frameworks) : Prop :=
  map config t = map config Engine.contradiction_frameworks.

(** A well-configured table is the initial one with levels and statuses of
    its own, one pair per framework. *)
Definition table (ls : list (Q * Engine.FrameworkStatus)) : Engine.frameworks :=
  zip_with (fun '(k, fw) '(l, s) =>
              (k, Engine.set_status s (Engine.set_current_level l fw)))
           Engine.contradiction_frameworks ls.


(** *** What a pass assigns

    The levels and statuses that [calculate_master_divergence_index] assigns,
    in the order of the table, as functions of the snapshot; they are used to
    describe the table a pass leaves behind. *)

Definition divergence_pct (raw : Engine.raw_data) : Q :=
  if ne (local_sentiment_of raw) 0
  then Qabs ((global_sentiment_of raw - local_sentiment_of raw) / local_sentiment_of raw * 100)
  else 6000.

Definition duration_pct (raw : Engine.raw_data) : Q :=
  mrn_duration_of raw / mrn_max_duration_of raw * 100.

Definition assigned (raw : Engine.raw_data) : list (Q * Engine.FrameworkStatus) :=
  [ (divergence_pct raw,
     if gt (divergence_pct raw) 1000 then Engine.CRITICAL
     else if gt (divergence_pct raw) 100 then Engine.WARNING
     else Engine.NORMAL);
    (75.0, Engine.CRITICAL);
    (126.0, Engine.CRITICAL);
    (100.0, Engine.CRITICAL);
    (114.3, Engine.CRITICAL);
    (duration_pct raw, if gt (duration_pct raw) 60 then Engine.WARNING else Engine.NORMAL);
    (50.0, Engine.WARNING) ].

(** The table after a pass that returns. *)
Definition scored (raw : Engine.raw_data) : Engine.frameworks :=
  table (assigned raw).

(** The table after a pass that raises at the MRN division: the first five
    frameworks are assigned, the last two are as they were. *)
Definition half_scored (raw : Engine.raw_data) (t : Engine.frameworks) : Engine.frameworks :=
  take 5 (scored raw) ++ drop 5 t.

(** The value a pass returns, from the table it leaves behind. *)
Definition outcome (now : string) (raw : Engine.raw_data) : Engine.AnalysisResult :=
  let t := scored raw in
  let total_score := (Engine.score_loop t).1 in
  let critical_count := (Engine.score_loop t).2 in
  Engine.mkResult
    now
    (map (fun '(name, fw) => (name, Engine.report fw)) t)
    total_score
    critical_count
    (if (3 <=? critical_count)%nat then "CRITICAL"
     else if (1 <=? critical_count)%nat then "WARNING"
     else "NORMAL")
    ((if gt (divergence_pct raw) 1000
      then [ Engine.mkOpportunity "Global-Local Arbitrage" "Long international, short local"
               (divergence_pct raw) "2-8 weeks" "Very High" ]
      else [])
     ++
     (if (2 <=? critical_count)%nat
      then [ Engine.mkOpportunity "Multi-Framework Arbitrage" "Position across contradictions"
               (total_score * 100) "1-4 weeks" "High" ]
      else []))
    (Engine.mkSummary
       (length t)
       (length (filter (fun fw => gt (Engine.current_level fw) (Engine.threshold fw) = true)
                       (values t)))
       (global_sentiment_of raw)
       (local_sentiment_of raw)
       (divergence_pct raw)).

(** *** The master index in the specification's words

    The sum, over the frameworks whose level is strictly above their
    threshold, of [min(level / 100, 10) * weight]. *)

#[global] Instance Qlt_decision (x y : Q) : Decision (x < y).
Proof. destruct (Qlt_le_dec x y) as [H|H]; [left; exact H | right; apply Qle_not_lt, H]. Defined.

#[global] Instance FrameworkStatus_eq_dec : EqDecision Engine.FrameworkStatus.
Proof. solve_decision. Defined.

Definition contribution (fw : Engine.ContradictionFramework) : Q :=
  Qmin (Engine.current_level fw / 100) 10 * Engine.weight fw.

Definition above_threshold (fw : Engine.ContradictionFramework) : Prop :=
  Engine.threshold fw < Engine.current_level fw.

Definition Qsum (l : list Q) : Q := fold_right Qplus 0 l.

Definition weighted_sum (fws : list Engine.ContradictionFramework) : Q :=
  Qsum (map contribution (filter above_threshold fws)).

(** The number of frameworks whose status is [CRITICAL]. *)
Definition critical_among (fws : list Engine.ContradictionFramework) : nat :=
  length (filter (fun fw => Engine.status fw = Engine.CRITICAL) fws).

(** *** Snapshots and clock readings used as examples *)

(** The fallback values of ingestion. *)
Definition default_snapshot : Engine.raw_data := snapshot 6.0 0.09 14 21.

(** A snapshot whose maximal MRN duration is zero. *)
Definition zero_max_snapshot : Engine.raw_data := snapshot 6.0 0.09 14 0.

(** A snapshot whose local sentiment is zero. *)
Definition zero_local_snapshot : Engine.raw_data := snapshot 6.0 0 14 21.

Definition nine_o_clock : string := "2025-06-13T09:00:00.000000".
Definition ten_o_clock : string := "2025-06-13T10:00:00.000000".

(** *** Reading a table and a result *)

(** Level and status of framework [k] in the engine's table. *)
Definition level_and_status (t : Engine.frameworks) (k : string)
  : option (Q * Engine.FrameworkStatus) :=
  (fun fw => (Engine.current_level fw, Engine.status fw)) <$> getitem t k.

(** Level and status of framework [k] as a result reports them. *)
Definition reported (r : Engine.AnalysisResult) (k : string) : option (Q * string) :=
  (fun rep => (Engine.level rep, Engine.report_status rep))
    <$> getitem (Engine.result_frameworks r) k.

(** *** The system status rule in the specification's words *)

(** CRITICAL from three critical frameworks on, WARNING from one on, NORMAL
    otherwise. *)
Definition status_rule (critical_frameworks : nat) : string :=
  if decide (3 <= critical_frameworks)%nat then "CRITICAL"
  else if decide (1 <= critical_frameworks)%nat then "WARNING"
  else "NORMAL".

(** The rule of [Generator.analyze_frameworks]: CRITICAL from two on. *)
Definition generator_status_rule (critical_frameworks : nat) : string :=
  if decide (2 <= critical_frameworks)%nat then "CRITICAL"
  else if decide (1 <= critical_frameworks)%nat then "WARNING"
  else "NORMAL".

(** The two records a pass can emit. *)
Definition global_local_arbitrage (magnitude : Q) : Engine.Opportunity :=
  Engine.mkOpportunity "Global-Local Arbitrage" "Long international, short local"
    magnitude "2-8 weeks" "Very High".

Definition multi_framework_arbitrage (magnitude : Q) : Engine.Opportunity :=
  Engine.mkOpportunity "Multi-Framework Arbitrage" "Position across contradictions"
    magnitude "1-4 weeks" "High".

(** *** Results up to the clock *)

(** The result [r] with the timestamp [now]. *)
Definition restamp (now : string) (r : Engine.AnalysisResult) : Engine.AnalysisResult :=
  Engine.mkResult now
    (Engine.result_frameworks r) (Engine.master_divergence_index r)
    (Engine.critical_frameworks r) (Engine.system_status r)
    (Engine.opportunities r) (Engine.summary r).

(** *** Computations that leave the static part of the table alone *)

Definition keeps_config {A : Type} (m : M Engine.frameworks A) : Prop :=
  forall t, map config (m t).1 = map config t.

(** *** Reading an analysis of [Publish.py] *)

(** Key, level and status of every entry, in order. *)
Definition entries (a : Generator.Analysis) : list (string * Q * string) :=
  map (fun e => (e.1, Generator.level e.2, Generator.status e.2))
      (Generator.contradictions a).

(** The fields of an opportunity record, whichever version emitted it. *)
Definition engine_record (o : Engine.Opportunity) : string * string * Q * string * string :=
  (Engine.type o, Engine.strategy o, Engine.magnitude o, Engine.timeline o,
   Engine.confidence o).

Definition generator_record (o : Generator.Opportunity)
  : string * string * Q * string * string :=
  (Generator.type o, Generator.strategy o, Generator.magnitude o, Generator.timeline o,
   Generator.confidence o).

(** *** The sentiment search of [extract_market_trend_data], as a specification *)

#[global] Instance Qeq_decision (x y : Q) : Decision (x == y).
Proof. destruct (Qeq_dec x y); [left | right]; assumption. Defined.

#[global] Instance Qle_decision (x y : Q) : Decision (x <= y).
Proof. destruct (Qlt_le_dec y x) as [H|H]; [right; apply Qlt_not_le, H | left; exact H]. Defined.

(** The first value on the elements of a selector that lies in [-10, 10]. *)
Definition selector_value (v : Extraction.view) (selector : string) : option Q :=
  head (filter (fun x => -10 <= x <= 10)
               (omap (fun element => Extraction.extract_numeric_value
                                       element Extraction.default_pattern)
                     (Extraction.select v selector))).

(** The first of those values, selector by selector, that is not 0.09. *)
Definition first_informative (v : Extraction.view) (selectors : list string) : option Q :=
  head (filter (fun x => ~ x == 0.09) (omap (selector_value v) selectors)).

(** *** Pages used as examples *)

Definition silent_text : Extraction.text :=
  Extraction.mkText true (fun _ => Extraction.NoMatch) (fun _ => Extraction.NoMatch).

(** A text on which the first numeric pattern finds [q]. *)
Definition text_showing (q : Q) : Extraction.text :=
  Extraction.mkText false
    (fun p => if String.eqb p Extraction.default_pattern
              then Extraction.Match q else Extraction.NoMatch)
    (fun _ => Extraction.NoMatch).

(** A page on which nothing is found. *)
Definition blank_view : Extraction.view :=
  Extraction.mkView (fun _ => []) [] (fun _ => Extraction.NoMatch)
    (fun _ => Extraction.NoMatch) (fun _ => Extraction.NoMatch) [].

(** A page that names eight known stocks (and one unknown symbol). *)
Definition eight_stocks_view : Extraction.view :=
  Extraction.mkView (fun _ => []) [] (fun _ => Extraction.NoMatch)
    (fun _ => Extraction.NoMatch) (fun _ => Extraction.NoMatch)
    [ "ITC"; "NSE"; "NTPC"; "ZOMATO"; "PAYTM"; "RELIANCE"; "INDIGO"; "NYKAA";
      "BHARTI" ]%string.

(** A page whose first selector shows 0.09 and whose second shows -2.5. *)
Definition sentinel_view : Extraction.view :=
  Extraction.mkView
    (fun selector =>
       if String.eqb selector ".sentiment-score" then [text_showing (-2.5)]
       else if String.eqb selector (nth 0 Extraction.sentiment_selectors "")
            then [text_showing 0.09]
            else [])
    [] (fun _ => Extraction.NoMatch) (fun _ => Extraction.NoMatch)
    (fun _ => Extraction.NoMatch) [].

(** A page showing an MRN duration of 17 days under the second pattern, after
    an out-of-range 45 under the first. *)
Definition seventeen_days_view : Extraction.view :=
  Extraction.mkView (fun _ => []) [] (fun _ => Extraction.NoMatch)
    (fun p => if String.eqb p "duration.*?(\d+)" then Extraction.Match 45%Z
              else if String.eqb p "(\d+).*?day.*?duration" then Extraction.Match 17%Z
              else Extraction.NoMatch)
    (fun _ => Extraction.NoMatch) [].

(** *** The page of a source *)

(** What [parse_html_file] returns for the file of [source_id] on a date. *)
Definition source_page (fs : Extraction.filesystem) (date_str source_id : string)
  : option Extraction.soup :=
  match getitem Extraction.data_sources source_id with
  | Some template => Extraction.parse_html_file fs (Extraction.format_path template date_str)
  | None => None
  end.

(** A file system without any file, and one whose MRN report for a date
    shows [seventeen_days_view]. *)
Definition no_files : Extraction.filesystem := fun _ => None.

Definition mrn_file_only (date_str : string) : Extraction.filesystem :=
  fun path =>
    if String.eqb path
         (Extraction.format_path
            ("C:/Projects/apps/institutional_flow_quant/NiftyMRNPredictions_", ".html")%string
            date_str)
    then Some (Extraction.Content false (Extraction.Soup seventeen_days_view))
    else None.

(** An extraction method that always raises. *)
Definition failing_method : Extraction.method :=
  fun _ => inl (Exception "ValueError" "no data").

(** *** The page of a source, in [Publish.py] *)

Definition generator_page (fs : GeneratorIngest.filesystem) (date_str source_id : string)
  : option GeneratorIngest.soup :=
  match getitem Extraction.data_sources source_id with
  | Some template =>
      GeneratorIngest.parse_html_file fs (Extraction.format_path template date_str)
  | None => None
  end.

(** The local sentiment that [extract_market_trend_data] of [Publish.py]
    finds in the market trend file of a date: [scan_elements] on the first
    three sentiment texts, and the default 0.09 of
    [raw_data.get("market_trend", {}).get("sentiment_score", 0.09)] when the
    file is not parsed or the search raises. *)
Definition generator_local_sentiment (fs : GeneratorIngest.filesystem) (date_str : string)
  : Q :=
  match generator_page fs date_str "market_trend" with
  | Some (GeneratorIngest.Soup sentiment_elements) =>
      GeneratorIngest.scan_elements (take 3 sentiment_elements) 0.09
  | _ => 0.09
  end.
(** * Properties *)

(** ** Comparisons *)

Lemma gt_true (a b : Q) : gt a b = true <-> b < a.
Proof.
  unfold gt. rewrite negb_true_iff, <- not_true_iff_false, Qle_bool_iff.
  split; [apply Qnot_le_lt | apply Qlt_not_le].
Qed.

Lemma gt_false (a b : Q) : gt a b = false <-> a <= b.
Proof. unfold gt. rewrite negb_false_iff. apply Qle_bool_iff. Qed.

Lemma Qeq_bool_false (a b : Q) : Qeq_bool a b = false <-> ~ a == b.
Proof. rewrite <- not_true_iff_false, Qeq_bool_iff. reflexivity. Qed.

Lemma gt_compat (a a' b b' : Q) : a == a' -> b == b' -> gt a b = gt a' b'.
Proof.
  intros Ha Hb. destruct (gt a' b') eqn:E.
  - apply gt_true. rewrite Ha, Hb. now apply gt_true.
  - apply gt_false. rewrite Ha, Hb. now apply gt_false.
Qed.

(** ** Well-configured tables *)

Lemma well_configured_init : well_configured Engine.contradiction_frameworks.
Proof. reflexivity. Qed.

Lemma well_configured_table (t : Engine.frameworks) :
  well_configured t ->
  exists l1 s1 l2 s2 l3 s3 l4 s4 l5 s5 l6 s6 l7 s7,
    t = table [(l1, s1); (l2, s2); (l3, s3); (l4, s4); (l5, s5); (l6, s6); (l7, s7)].
Proof.
  unfold well_configured. intros H.
  do 7 (destruct t as [|[? []] t]; [discriminate H|]).
  destruct t; [|discriminate H].
  cbn in H. simplify_eq. repeat eexists.
Qed.

Lemma well_configured_scored raw : well_configured (scored raw).
Proof. reflexivity. Qed.

(** ** What a pass does to a well-configured table *)

Ltac known_table H :=
  apply well_configured_table in H;
  destruct H as (?l & ?s & ?l & ?s & ?l & ?s & ?l & ?s & ?l & ?s & ?l & ?s & ?l & ?s & ->).

Ltac run_pass :=
  cbv -[Qplus Qmult Qminus Qdiv Qopp Qinv Qabs Qmin Qle_bool Qeq_bool
        Engine.metric Engine.score_loop].

Lemma pass_returns now raw t :
  well_configured t ->
  ~ mrn_max_duration_of raw == 0 ->
  Engine.calculate_master_divergence_index now raw t = (scored raw, inr (outcome now raw)).
Proof.
  intros Ht Hmax. known_table Ht. apply Qeq_bool_false in Hmax.
  unfold Engine.calculate_master_divergence_index, outcome, scored, assigned,
    divergence_pct, duration_pct, truediv, ne.
  rewrite Hmax.
  destruct (Qeq_bool (local_sentiment_of raw) 0); run_pass;
    match goal with |- context [Engine.score_loop ?x] => destruct (Engine.score_loop x) end;
    reflexivity.
Qed.

Lemma pass_raises now raw t :
  well_configured t ->
  mrn_max_duration_of raw == 0 ->
  Engine.calculate_master_divergence_index now raw t
  = (half_scored raw t, inl ZeroDivisionError).
Proof.
  intros Ht Hmax. known_table Ht. apply Qeq_bool_iff in Hmax.
  unfold Engine.calculate_master_divergence_index, half_scored, scored, assigned,
    divergence_pct, duration_pct, truediv, ne.
  rewrite Hmax.
  destruct (Qeq_bool (local_sentiment_of raw) 0); run_pass; reflexivity.
Qed.

(** ** The aggregation loop *)

Lemma score_step_total acc fw :
  (Engine.score_step acc fw).1
  == acc.1 + (if decide (above_threshold fw) then contribution fw else 0).
Proof.
  destruct acc as [a n]. unfold Engine.score_step, above_threshold, contribution.
  destruct (gt (Engine.current_level fw) (Engine.threshold fw)) eqn:E; cbn [fst].
  - apply gt_true in E. rewrite decide_True by exact E. reflexivity.
  - apply gt_false in E. rewrite decide_False by (apply Qle_not_lt, E). ring.
Qed.

Lemma score_step_count acc fw :
  (Engine.score_step acc fw).2
  = (acc.2 + (if decide (Engine.status fw = Engine.CRITICAL) then 1 else 0))%nat.
Proof.
  destruct acc as [a n]. unfold Engine.score_step.
  destruct (gt (Engine.current_level fw) (Engine.threshold fw));
    destruct (Engine.status fw); case_decide; try discriminate; try congruence; cbn; lia.
Qed.

Lemma weighted_sum_cons fw fws :
  weighted_sum (fw :: fws)
  == (if decide (above_threshold fw) then contribution fw else 0) + weighted_sum fws.
Proof.
  unfold weighted_sum. destruct (decide (above_threshold fw)) as [H|H].
  - rewrite filter_cons_True by exact H. reflexivity.
  - rewrite filter_cons_False by exact H. ring.
Qed.

Lemma critical_among_cons fw fws :
  critical_among (fw :: fws)
  = ((if decide (Engine.status fw = Engine.CRITICAL) then 1 else 0) + critical_among fws)%nat.
Proof.
  unfold critical_among. destruct (decide (Engine.status fw = Engine.CRITICAL)) as [H|H].
  - rewrite filter_cons_True by exact H. reflexivity.
  - rewrite filter_cons_False by exact H. reflexivity.
Qed.

Lemma score_fold_total fws acc :
  (fold_left Engine.score_step fws acc).1 == acc.1 + weighted_sum fws.
Proof.
  revert acc. induction fws as [|fw fws IH]; intros acc; cbn [fold_left].
  - unfold weighted_sum. cbn. ring.
  - rewrite IH, score_step_total, weighted_sum_cons. ring.
Qed.

Lemma score_fold_count fws acc :
  (fold_left Engine.score_step fws acc).2 = (acc.2 + critical_among fws)%nat.
Proof.
  revert acc. induction fws as [|fw fws IH]; intros acc; cbn [fold_left].
  - unfold critical_among. cbn. lia.
  - rewrite IH, score_step_count, critical_among_cons. lia.
Qed.

Lemma score_loop_total t : (Engine.score_loop t).1 == weighted_sum (values t).
Proof. unfold Engine.score_loop. rewrite score_fold_total. cbn. ring. Qed.

Lemma score_loop_count t : (Engine.score_loop t).2 = critical_among (values t).
Proof. unfold Engine.score_loop. rewrite score_fold_count. reflexivity. Qed.

(** The contribution of a framework grows with its level. *)
Lemma contribution_mono fw x y :
  0 <= Engine.weight fw -> x <= y ->
  contribution (Engine.set_current_level x fw) <= contribution (Engine.set_current_level y fw).
Proof.
  intros Hw Hxy. unfold contribution, Engine.set_current_level.
  cbn [Engine.current_level Engine.weight].
  apply Qmult_le_compat_r; [|exact Hw].
  apply Q.min_le_compat_r.
  apply Qmult_le_compat_r; [exact Hxy | discriminate].
Qed.

Lemma weighted_sum_mono (t : Engine.frameworks) k fw x y :
  getitem t k = Some fw ->
  0 <= Engine.weight fw ->
  Engine.threshold fw < x -> x <= y ->
  weighted_sum (values (update (Engine.set_current_level x) t k))
  <= weighted_sum (values (update (Engine.set_current_level y) t k)).
Proof.
  intros Hk Hw Hx Hxy. induction t as [|[k' v] t IH]; [discriminate Hk|].
  cbn [getitem update] in Hk |- *. destruct (String.eqb k k').
  - injection Hk as ->. unfold values. cbn [map snd]. rewrite !weighted_sum_cons.
    rewrite !decide_True by (unfold above_threshold; cbn [Engine.set_current_level Engine.current_level Engine.threshold]; lra).
    apply Qplus_le_compat; [now apply contribution_mono | apply Qle_refl].
  - unfold values in *. cbn [map snd]. rewrite !weighted_sum_cons.
    apply Qplus_le_compat; [apply Qle_refl | now apply IH].
Qed.

Lemma well_configured_weight t k fw :
  well_configured t -> getitem t k = Some fw -> 0 < Engine.weight fw.
Proof.
  intros Ht Hk. known_table Ht. cbn in Hk.
  repeat (destruct (String.eqb k _); [injection Hk as <-; reflexivity|]).
  discriminate Hk.
Qed.

(** ** The levels a pass assigns *)

Lemma divergence_pct_nonzero raw :
  ~ local_sentiment_of raw == 0 ->
  divergence_pct raw
  == Qabs ((global_sentiment_of raw - local_sentiment_of raw) / local_sentiment_of raw) * 100.
Proof.
  intros Hl. unfold divergence_pct, ne.
  apply Qeq_bool_false in Hl. rewrite Hl. cbn [negb].
  rewrite Qabs_Qmult. reflexivity.
Qed.

Lemma divergence_pct_zero raw :
  local_sentiment_of raw == 0 -> divergence_pct raw = 6000.
Proof.
  intros Hl. unfold divergence_pct, ne.
  apply Qeq_bool_iff in Hl. rewrite Hl. reflexivity.
Qed.

(** The table a pass leaves behind, whether it returns or raises. *)
Lemma pass_table now raw t :
  well_configured t ->
  (Engine.calculate_master_divergence_index now raw t).1
  = if Qeq_bool (mrn_max_duration_of raw) 0 then half_scored raw t else scored raw.
Proof.
  intros Ht. destruct (Qeq_bool (mrn_max_duration_of raw) 0) eqn:E.
  - apply Qeq_bool_iff in E. now rewrite pass_raises.
  - apply Qeq_bool_false in E. now rewrite pass_returns.
Qed.

(** C2: for a snapshot whose local sentiment is not zero, the level of
    [global_vs_local] is [|(global - local) / local| * 100]; for a local
    sentiment of zero it is 6000, whatever the global sentiment; the status
    is CRITICAL above 1000, else WARNING above 100, else NORMAL.  The
    framework is assigned before the pass can raise, and a pass that returns
    reports it as assigned. *)
Theorem global_vs_local_level now raw t :
  well_configured t ->
  let g := global_sentiment_of raw in
  let l := local_sentiment_of raw in
  let run := Engine.calculate_master_divergence_index now raw t in
  exists fw,
    getitem run.1 "global_vs_local" = Some fw /\
    (~ l == 0 -> Engine.current_level fw == Qabs ((g - l) / l) * 100) /\
    (l == 0 -> Engine.current_level fw = 6000) /\
    (1000 < Engine.current_level fw -> Engine.status fw = Engine.CRITICAL) /\
    (Engine.current_level fw <= 1000 -> 100 < Engine.current_level fw ->
     Engine.status fw = Engine.WARNING) /\
    (Engine.current_level fw <= 100 -> Engine.status fw = Engine.NORMAL) /\
    (forall r, run.2 = inr r ->
               getitem (Engine.result_frameworks r) "global_vs_local" = Some (Engine.report fw)).
Proof.
  intros Ht g l run.
  exists (Engine.mkFramework
            "Global vs Local Sentiment" (divergence_pct raw) 100.0 0.20
            (if gt (divergence_pct raw) 1000 then Engine.CRITICAL
             else if gt (divergence_pct raw) 100 then Engine.WARNING
             else Engine.NORMAL)
            "Global-local sentiment divergence creating arbitrage opportunities").
  cbn [Engine.current_level Engine.status].
  split; [|split; [|split; [|split; [|split; [|split]]]]].
  - subst run. rewrite pass_table by exact Ht.
    destruct (Qeq_bool _ 0); reflexivity.
  - apply divergence_pct_nonzero.
  - apply divergence_pct_zero.
  - intros H. apply gt_true in H. now rewrite H.
  - intros H1 H2. apply gt_false in H1. apply gt_true in H2. now rewrite H1, H2.
  - intros H. assert (H' : divergence_pct raw <= 1000) by lra.
    apply gt_false in H, H'. now rewrite H', H.
  - intros r Hr. subst run.
    destruct (Qeq_dec (mrn_max_duration_of raw) 0) as [E|E].
    + rewrite pass_raises in Hr by assumption. discriminate Hr.
    + rewrite pass_returns in Hr by assumption. injection Hr as <-. reflexivity.
Qed.

Lemma global_vs_local_level_witness :
  exists fw,
    getitem (Engine.calculate_master_divergence_index
               nine_o_clock default_snapshot Engine.contradiction_frameworks).1
            "global_vs_local" = Some fw /\
    Engine.current_level fw == Qabs ((6.0 - 0.09) / 0.09) * 100 /\
    Engine.status fw = Engine.CRITICAL.
Proof.
  assert (Hwc : well_configured Engine.contradiction_frameworks) by reflexivity.
  destruct (global_vs_local_level nine_o_clock default_snapshot
              Engine.contradiction_frameworks Hwc)
    as (fw & Hfw & Hlevel & _ & Hcrit & _).
  exists fw. split; [exact Hfw|].
  assert (H : Engine.current_level fw == Qabs ((6.0 - 0.09) / 0.09) * 100)
    by (apply Hlevel; vm_compute; discriminate).
  split; [exact H|]. apply Hcrit. rewrite H. vm_compute. reflexivity.
Defined.

Lemma critical_among_scored raw :
  critical_among (values (scored raw))
  = if gt (divergence_pct raw) 1000 then 5%nat else 4%nat.
Proof.
  unfold scored, assigned, critical_among.
  destruct (gt (divergence_pct raw) 1000);
    destruct (gt (divergence_pct raw) 100);
    destruct (gt (duration_pct raw) 60); reflexivity.
Qed.

(** C6: a pass gives [economic_assessment], [credit_vs_fundamentals],
    [risk_vs_activity] and [sector_intelligence] the levels 75.0, 126.0, 100.0
    and 114.3 with status CRITICAL, for every snapshot (they are assigned
    before the MRN division); a pass that returns also gives
    [us_economic_backdrop] the level 50.0 with status WARNING, and reports
    the five as assigned.  No field of the snapshot occurs in these values. *)
Theorem constant_frameworks now raw t :
  well_configured t ->
  let run := Engine.calculate_master_divergence_index now raw t in
  (level_and_status run.1 "economic_assessment" = Some (75.0, Engine.CRITICAL) /\
   level_and_status run.1 "credit_vs_fundamentals" = Some (126.0, Engine.CRITICAL) /\
   level_and_status run.1 "risk_vs_activity" = Some (100.0, Engine.CRITICAL) /\
   level_and_status run.1 "sector_intelligence" = Some (114.3, Engine.CRITICAL)) /\
  (~ mrn_max_duration_of raw == 0 ->
   exists r,
     run.2 = inr r /\
     level_and_status run.1 "us_economic_backdrop" = Some (50.0, Engine.WARNING) /\
     reported r "economic_assessment" = Some (75.0, "CRITICAL"%string) /\
     reported r "credit_vs_fundamentals" = Some (126.0, "CRITICAL"%string) /\
     reported r "risk_vs_activity" = Some (100.0, "CRITICAL"%string) /\
     reported r "sector_intelligence" = Some (114.3, "CRITICAL"%string) /\
     reported r "us_economic_backdrop" = Some (50.0, "WARNING"%string)).
Proof.
  intros Ht run. split.
  - subst run. rewrite pass_table by exact Ht.
    destruct (Qeq_bool _ 0); repeat split; reflexivity.
  - intros Hmax. subst run. rewrite pass_returns by assumption.
    exists (outcome now raw). repeat split; reflexivity.
Qed.

Lemma constant_frameworks_witness :
  exists r,
    (Engine.calculate_master_divergence_index
       nine_o_clock default_snapshot Engine.contradiction_frameworks).2 = inr r /\
    reported r "sector_intelligence" = Some (114.3, "CRITICAL"%string) /\
    reported r "us_economic_backdrop" = Some (50.0, "WARNING"%string).
Proof.
  assert (Hwc : well_configured Engine.contradiction_frameworks) by reflexivity.
  destruct (constant_frameworks nine_o_clock default_snapshot
              Engine.contradiction_frameworks Hwc) as [_ H].
  destruct H as (r & Hr & _ & _ & _ & _ & Hs & Hu); [vm_compute; discriminate|].
  exists r. repeat split; assumption.
Defined.

(** C7: for a snapshot whose maximal MRN duration is positive, the level of
    [quantitative_regime] is [(mrn_duration / mrn_max_duration) * 100] and
    its status is WARNING above 60 and NORMAL otherwise; for a duration of 14
    out of 21 the level is 200/3 = 66.666... and the status is WARNING. *)
Theorem quantitative_regime_level now raw t :
  well_configured t ->
  0 < mrn_max_duration_of raw ->
  let d := mrn_duration_of raw in
  let m := mrn_max_duration_of raw in
  exists t' r fw,
    Engine.calculate_master_divergence_index now raw t = (t', inr r) /\
    getitem t' "quantitative_regime" = Some fw /\
    getitem (Engine.result_frameworks r) "quantitative_regime" = Some (Engine.report fw) /\
    Engine.current_level fw == (d / m) * 100 /\
    (60 < Engine.current_level fw -> Engine.status fw = Engine.WARNING) /\
    (Engine.current_level fw <= 60 -> Engine.status fw = Engine.NORMAL) /\
    (d == 14 -> m == 21 ->
     Engine.current_level fw == 200 # 3 /\
     66.666 < Engine.current_level fw < 66.667 /\
     Engine.status fw = Engine.WARNING).
Proof.
  intros Ht Hmax d m.
  assert (Hne : ~ m == 0) by (subst m; lra).
  rewrite pass_returns by assumption.
  exists (scored raw), (outcome now raw),
    (Engine.mkFramework
       "Quantitative Regime Analysis" (duration_pct raw) 75.0 0.15
       (if gt (duration_pct raw) 60 then Engine.WARNING else Engine.NORMAL)
       "MRN regime approaching transition thresholds").
  cbn [Engine.current_level Engine.status].
  split; [reflexivity|]. split; [reflexivity|]. split; [reflexivity|].
  split; [reflexivity|]. split; [|split].
  - intros H. apply gt_true in H. now rewrite H.
  - intros H. apply gt_false in H. now rewrite H.
  - intros Hd Hm.
    assert (E : duration_pct raw == 200 # 3).
    { unfold duration_pct. fold d m. rewrite Hd, Hm. reflexivity. }
    split; [exact E|]. split; [rewrite E; split; reflexivity|].
    rewrite (gt_compat _ (200 # 3) _ 60 E (Qeq_refl _)). reflexivity.
Qed.

Lemma quantitative_regime_level_witness :
  exists t' r fw,
    Engine.calculate_master_divergence_index
      nine_o_clock default_snapshot Engine.contradiction_frameworks = (t', inr r) /\
    getitem t' "quantitative_regime" = Some fw /\
    Engine.current_level fw == 200 # 3 /\
    Engine.status fw = Engine.WARNING.
Proof.
  assert (Hwc : well_configured Engine.contradiction_frameworks) by reflexivity.
  assert (Hmax : 0 < mrn_max_duration_of default_snapshot) by (vm_compute; reflexivity).
  destruct (quantitative_regime_level nine_o_clock default_snapshot
              Engine.contradiction_frameworks Hwc Hmax)
    as (t' & r & fw & Hrun & Hfw & _ & _ & _ & _ & H).
  destruct H as (Hl & _ & Hs); [vm_compute; reflexivity | vm_compute; reflexivity |].
  exists t', r, fw. repeat split; assumption.
Defined.

(** ** Aggregates of a pass that returns *)

Lemma leb_decide (a b : nat) (A : Type) (x y : A) :
  (if (a <=? b)%nat then x else y) = (if decide (a <= b)%nat then x else y).
Proof.
  destruct (Nat.leb_spec a b); case_decide; try reflexivity; lia.
Qed.

(** C4: the master divergence index of a pass is the sum, over the frameworks
    whose level is strictly above their threshold, of
    [min(level / 100, 10) * weight]; the frameworks at or below their
    threshold are not in the sum.  Levels and thresholds are those of the
    table after the pass, which the result reports. *)
Theorem master_index_is_weighted_sum now raw t :
  well_configured t ->
  ~ mrn_max_duration_of raw == 0 ->
  exists t' r,
    Engine.calculate_master_divergence_index now raw t = (t', inr r) /\
    Engine.result_frameworks r = map (fun '(k, fw) => (k, Engine.report fw)) t' /\
    Engine.master_divergence_index r
    == Qsum (map (fun fw => Qmin (Engine.current_level fw / 100) 10 * Engine.weight fw)
                 (filter (fun fw => Engine.threshold fw < Engine.current_level fw)
                         (values t'))).
Proof.
  intros Ht Hmax. rewrite pass_returns by assumption.
  exists (scored raw), (outcome now raw).
  split; [reflexivity|]. split; [reflexivity|].
  cbn [outcome Engine.master_divergence_index].
  apply score_loop_total.
Qed.

Lemma master_index_is_weighted_sum_witness :
  exists t' r,
    Engine.calculate_master_divergence_index
      nine_o_clock default_snapshot Engine.contradiction_frameworks = (t', inr r) /\
    Engine.result_frameworks r = map (fun '(k, fw) => (k, Engine.report fw)) t' /\
    Engine.master_divergence_index r
    == Qsum (map (fun fw => Qmin (Engine.current_level fw / 100) 10 * Engine.weight fw)
                 (filter (fun fw => Engine.threshold fw < Engine.current_level fw)
                         (values t'))).
Proof.
  apply (master_index_is_weighted_sum nine_o_clock default_snapshot
           Engine.contradiction_frameworks).
  - reflexivity.
  - vm_compute. discriminate.
Defined.

(** C10: on every snapshot on which a pass returns, the four constant-level
    frameworks have status CRITICAL, so [critical_frameworks] is at least 4
    (it is 4 or 5), [system_status] is "CRITICAL", and the opportunities
    contain a "Multi-Framework Arbitrage" record: the list is never empty. *)
Theorem always_critical now raw t :
  well_configured t ->
  ~ mrn_max_duration_of raw == 0 ->
  exists t' r,
    Engine.calculate_master_divergence_index now raw t = (t', inr r) /\
    Forall (fun k => exists fw, getitem t' k = Some fw /\ Engine.status fw = Engine.CRITICAL)
           [ "economic_assessment"; "credit_vs_fundamentals";
             "risk_vs_activity"; "sector_intelligence" ]%string /\
    (4 <= critical_among (values t'))%nat /\
    (4 <= Engine.critical_frameworks r <= 5)%nat /\
    Engine.system_status r = "CRITICAL"%string /\
    multi_framework_arbitrage (Engine.master_divergence_index r * 100)
      ∈ Engine.opportunities r /\
    Engine.opportunities r <> [].
Proof.
  intros Ht Hmax. rewrite pass_returns by assumption.
  exists (scored raw), (outcome now raw).
  split; [reflexivity|].
  split; [repeat constructor; eexists; split; reflexivity|].
  assert (Hc : Engine.critical_frameworks (outcome now raw)
               = if gt (divergence_pct raw) 1000 then 5%nat else 4%nat).
  { cbn [outcome Engine.critical_frameworks].
    rewrite score_loop_count. apply critical_among_scored. }
  assert (Ho : multi_framework_arbitrage (Engine.master_divergence_index (outcome now raw) * 100)
               ∈ Engine.opportunities (outcome now raw)).
  { cbn [outcome Engine.opportunities Engine.master_divergence_index].
    cbn [outcome Engine.critical_frameworks] in Hc. rewrite Hc.
    apply elem_of_app. right.
    destruct (gt (divergence_pct raw) 1000); apply list_elem_of_singleton; reflexivity. }
  split; [rewrite critical_among_scored; destruct (gt _ 1000); lia|].
  split; [rewrite Hc; destruct (gt _ 1000); lia|].
  split.
  - cbn [outcome Engine.system_status]. cbn [outcome Engine.critical_frameworks] in Hc.
    rewrite Hc. destruct (gt _ 1000); reflexivity.
  - split; [exact Ho|]. intros E. rewrite E in Ho. inversion Ho.
Qed.

Lemma always_critical_witness :
  exists t' r,
    Engine.calculate_master_divergence_index
      nine_o_clock default_snapshot Engine.contradiction_frameworks = (t', inr r) /\
    (4 <= Engine.critical_frameworks r <= 5)%nat /\
    Engine.system_status r = "CRITICAL"%string /\
    Engine.opportunities r <> [].
Proof.
  assert (Hwc : well_configured Engine.contradiction_frameworks) by reflexivity.
  assert (Hmax : ~ mrn_max_duration_of default_snapshot == 0) by (vm_compute; discriminate).
  destruct (always_critical nine_o_clock default_snapshot
              Engine.contradiction_frameworks Hwc Hmax)
    as (t' & r & Hrun & _ & _ & Hc & Hs & _ & Ho).
  exists t', r. repeat split; try assumption; apply Hc.
Defined.

(** C5: the opportunities of a pass are, in this order, a "Global-Local
    Arbitrage" record (magnitude: the level of [global_vs_local]) exactly
    when that level is above 1000, then a "Multi-Framework Arbitrage" record
    (magnitude: the master divergence index times 100) exactly when at least
    two frameworks are critical; there is no other record. *)
Theorem opportunities_in_order now raw t :
  well_configured t ->
  ~ mrn_max_duration_of raw == 0 ->
  exists t' r fw,
    Engine.calculate_master_divergence_index now raw t = (t', inr r) /\
    getitem t' "global_vs_local" = Some fw /\
    Engine.opportunities r
    = (if decide (1000 < Engine.current_level fw)
       then [global_local_arbitrage (Engine.current_level fw)] else [])
      ++
      (if decide (2 <= Engine.critical_frameworks r)%nat
       then [multi_framework_arbitrage (Engine.master_divergence_index r * 100)] else []).
Proof.
  intros Ht Hmax. rewrite pass_returns by assumption.
  exists (scored raw), (outcome now raw). eexists.
  split; [reflexivity|]. split; [reflexivity|].
  cbn [outcome Engine.opportunities Engine.critical_frameworks
       Engine.master_divergence_index Engine.current_level Engine.set_status
       Engine.set_current_level].
  rewrite leb_decide. f_equal.
  destruct (gt (divergence_pct raw) 1000) eqn:E.
  - apply gt_true in E. now rewrite decide_True.
  - apply gt_false in E. rewrite decide_False; [reflexivity | now apply Qle_not_lt].
Qed.

Lemma opportunities_in_order_witness :
  exists t' r fw,
    Engine.calculate_master_divergence_index
      nine_o_clock default_snapshot Engine.contradiction_frameworks = (t', inr r) /\
    getitem t' "global_vs_local" = Some fw /\
    Engine.opportunities r
    = (if decide (1000 < Engine.current_level fw)
       then [global_local_arbitrage (Engine.current_level fw)] else [])
      ++
      (if decide (2 <= Engine.critical_frameworks r)%nat
       then [multi_framework_arbitrage (Engine.master_divergence_index r * 100)] else []).
Proof.
  apply (opportunities_in_order nine_o_clock default_snapshot
           Engine.contradiction_frameworks).
  - reflexivity.
  - vm_compute. discriminate.
Defined.

(** ** The earlier analysis of [Publish.py] *)

Lemma analysis_returns now raw :
  exists a,
    Generator.analyze_frameworks now raw tt = (tt, inr a) /\
    Generator.critical_frameworks (Generator.summary a)
    = length (filter (fun c => Generator.status c = "CRITICAL"%string)
                     (values (Generator.contradictions a))) /\
    Generator.critical_frameworks (Generator.summary a) = 2%nat /\
    Generator.system_status (Generator.summary a) = "CRITICAL"%string.
Proof.
  unfold Generator.analyze_frameworks, truediv, ne.
  destruct (Qeq_bool (Generator.metric raw "market_trend" "sentiment_score" 0.09) 0);
    cbn [negb]; eexists; (split; [reflexivity|]);
    cbn [Generator.summary Generator.critical_frameworks Generator.system_status
         Generator.contradictions];
    (split; [reflexivity|]);
    unfold values; cbn [map snd];
    repeat match goal with |- context [gt ?a ?b] => destruct (gt a b) end;
    split; reflexivity.
Qed.

(** C3, as the code has it: in [calculate_master_divergence_index],
    [critical_frameworks] is the number of frameworks whose status is
    CRITICAL (in the table, and in the statuses the result reports), and
    [system_status] is CRITICAL from three critical frameworks on, WARNING
    from one on, NORMAL otherwise.  In [analyze_frameworks] of [Publish.py],
    [critical_frameworks] is again the number of entries whose status is
    "CRITICAL", but [system_status] is CRITICAL from two on. *)
Theorem system_status_rules now raw t now' raw' :
  well_configured t ->
  ~ mrn_max_duration_of raw == 0 ->
  (exists t' r,
     Engine.calculate_master_divergence_index now raw t = (t', inr r) /\
     Engine.critical_frameworks r
     = length (filter (fun fw => Engine.status fw = Engine.CRITICAL) (values t')) /\
     Engine.critical_frameworks r
     = length (filter (fun rep => Engine.report_status rep = "CRITICAL"%string)
                      (values (Engine.result_frameworks r))) /\
     Engine.system_status r = status_rule (Engine.critical_frameworks r)) /\
  (exists a,
     Generator.analyze_frameworks now' raw' tt = (tt, inr a) /\
     Generator.critical_frameworks (Generator.summary a)
     = length (filter (fun c => Generator.status c = "CRITICAL"%string)
                      (values (Generator.contradictions a))) /\
     Generator.system_status (Generator.summary a)
     = generator_status_rule (Generator.critical_frameworks (Generator.summary a))).
Proof.
  intros Ht Hmax. split.
  - rewrite pass_returns by assumption.
    exists (scored raw), (outcome now raw).
    split; [reflexivity|].
    cbn [outcome Engine.critical_frameworks Engine.system_status Engine.result_frameworks].
    split; [apply score_loop_count|]. split.
    + rewrite score_loop_count, critical_among_scored.
      unfold scored, assigned.
      destruct (gt (divergence_pct raw) 1000);
        destruct (gt (divergence_pct raw) 100);
        destruct (gt (duration_pct raw) 60); reflexivity.
    + unfold status_rule. now rewrite !leb_decide.
  - destruct (analysis_returns now' raw') as (a & Hrun & Hcount & Htwo & Hstatus).
    exists a. split; [exact Hrun|]. split; [exact Hcount|].
    rewrite Hstatus, Htwo. reflexivity.
Qed.

Lemma system_status_rules_witness :
  (exists t' r,
     Engine.calculate_master_divergence_index
       nine_o_clock default_snapshot Engine.contradiction_frameworks = (t', inr r) /\
     Engine.critical_frameworks r
     = length (filter (fun fw => Engine.status fw = Engine.CRITICAL) (values t')) /\
     Engine.critical_frameworks r
     = length (filter (fun rep => Engine.report_status rep = "CRITICAL"%string)
                      (values (Engine.result_frameworks r))) /\
     Engine.system_status r = status_rule (Engine.critical_frameworks r)) /\
  (exists a,
     Generator.analyze_frameworks ten_o_clock zero_local_snapshot tt = (tt, inr a) /\
     Generator.critical_frameworks (Generator.summary a)
     = length (filter (fun c => Generator.status c = "CRITICAL"%string)
                      (values (Generator.contradictions a))) /\
     Generator.system_status (Generator.summary a)
     = generator_status_rule (Generator.critical_frameworks (Generator.summary a))).
Proof.
  apply (system_status_rules nine_o_clock default_snapshot Engine.contradiction_frameworks
           ten_o_clock zero_local_snapshot).
  - reflexivity.
  - vm_compute. discriminate.
Defined.

(** C3, as stated, fails on [analyze_frameworks]: on the fallback snapshot
    it counts two critical entries and reports the system status "CRITICAL",
    where the rule with three gives "WARNING". *)
Lemma system_status_counterexample :
  exists a,
    Generator.analyze_frameworks nine_o_clock default_snapshot tt = (tt, inr a) /\
    Generator.critical_frameworks (Generator.summary a) = 2%nat /\
    Generator.system_status (Generator.summary a) = "CRITICAL"%string /\
    status_rule (Generator.critical_frameworks (Generator.summary a)) = "WARNING"%string /\
    Generator.system_status (Generator.summary a)
    <> status_rule (Generator.critical_frameworks (Generator.summary a)).
Proof.
  eexists. split; [vm_compute; reflexivity|].
  repeat split; try reflexivity. vm_compute. discriminate.
Qed.

(** C9: with the other frameworks as they are, the master index computed by
    the loop does not decrease when the level of one framework grows, as long
    as the level is strictly above that framework's threshold. *)
Theorem master_index_monotone (t : Engine.frameworks) k fw x y :
  well_configured t ->
  getitem t k = Some fw ->
  Engine.threshold fw < x ->
  x <= y ->
  (Engine.score_loop (update (Engine.set_current_level x) t k)).1
  <= (Engine.score_loop (update (Engine.set_current_level y) t k)).1.
Proof.
  intros Ht Hk Hx Hxy. rewrite !score_loop_total.
  apply (weighted_sum_mono t k fw); try assumption.
  apply Qlt_le_weak. now apply (well_configured_weight t k).
Qed.

Lemma master_index_monotone_witness :
  (Engine.score_loop
     (update (Engine.set_current_level 60) Engine.contradiction_frameworks
             "economic_assessment")).1
  <= (Engine.score_loop
        (update (Engine.set_current_level 75) Engine.contradiction_frameworks
                "economic_assessment")).1.
Proof.
  apply (master_index_monotone Engine.contradiction_frameworks "economic_assessment"
           (Engine.mkFramework "Economic Assessment vs Reality" 0.0 50.0 0.15 Engine.NORMAL
              "Economic assessments contradicting actual indicator data")).
  - reflexivity.
  - reflexivity.
  - reflexivity.
  - vm_compute. discriminate.
Defined.

(** ** Passes one after the other *)

Lemma well_configured_half_scored raw t :
  well_configured t -> well_configured (half_scored raw t).
Proof. intros Ht. known_table Ht. reflexivity. Qed.

Lemma half_scored_again raw t :
  well_configured t -> half_scored raw (half_scored raw t) = half_scored raw t.
Proof. intros Ht. known_table Ht. reflexivity. Qed.

(** Every pass leaves a well-configured table behind. *)
Lemma pass_keeps_configuration now raw t :
  well_configured t ->
  well_configured (Engine.calculate_master_divergence_index now raw t).1.
Proof.
  intros Ht. rewrite pass_table by exact Ht.
  destruct (Qeq_bool _ 0); [now apply well_configured_half_scored | reflexivity].
Qed.

(** C8, as the code has it: a pass stamps the reading of the clock into its
    result, and that is all that tells two passes on one snapshot apart.  The
    second pass leaves the table as the first left it, returns the result of
    the first with its own timestamp (or raises as the first did), and what a
    pass returns does not depend on the levels and statuses it found in the
    table. *)
Theorem rescoring_differs_by_timestamp now1 now2 raw t :
  well_configured t ->
  let run1 := Engine.calculate_master_divergence_index now1 raw t in
  let run2 := Engine.calculate_master_divergence_index now2 raw run1.1 in
  run2.1 = run1.1 /\
  (forall r1, run1.2 = inr r1 ->
              Engine.timestamp r1 = now1 /\ run2.2 = inr (restamp now2 r1)) /\
  (forall e, run1.2 = inl e -> run2.2 = inl e) /\
  (forall t0, well_configured t0 ->
              (Engine.calculate_master_divergence_index now1 raw t0).2 = run1.2).
Proof.
  intros Ht run1 run2. subst run1 run2.
  destruct (Qeq_dec (mrn_max_duration_of raw) 0) as [E|E].
  - rewrite (pass_raises now1) by assumption. cbn [fst snd].
    rewrite (pass_raises now2) by (try apply well_configured_half_scored; assumption).
    cbn [fst snd]. rewrite half_scored_again by assumption.
    split; [reflexivity|]. split; [discriminate|]. split; [easy|].
    intros t0 Ht0. now rewrite pass_raises.
  - rewrite (pass_returns now1) by assumption. cbn [fst snd].
    rewrite (pass_returns now2) by (try apply well_configured_scored; assumption).
    cbn [fst snd]. split; [reflexivity|]. split; [|split; [discriminate|]].
    + intros r1 [= <-]. split; reflexivity.
    + intros t0 Ht0. now rewrite pass_returns.
Qed.

Lemma rescoring_differs_by_timestamp_witness :
  let run1 := Engine.calculate_master_divergence_index
                nine_o_clock default_snapshot Engine.contradiction_frameworks in
  let run2 := Engine.calculate_master_divergence_index ten_o_clock default_snapshot run1.1 in
  run2.1 = run1.1 /\
  exists r1, run1.2 = inr r1 /\ run2.2 = inr (restamp ten_o_clock r1).
Proof.
  assert (Hwc : well_configured Engine.contradiction_frameworks) by reflexivity.
  destruct (rescoring_differs_by_timestamp nine_o_clock ten_o_clock default_snapshot
              Engine.contradiction_frameworks Hwc) as (Htable & Hres & _ & _).
  split; [exact Htable|].
  eexists. split; [vm_compute; reflexivity|].
  apply Hres. vm_compute. reflexivity.
Defined.

(** C8, as stated, fails: two passes over the fallback snapshot, an hour
    apart, return results that differ (in their timestamps). *)
Lemma rescoring_counterexample :
  let run1 := Engine.calculate_master_divergence_index
                nine_o_clock default_snapshot Engine.contradiction_frameworks in
  let run2 := Engine.calculate_master_divergence_index ten_o_clock default_snapshot run1.1 in
  run1.2 <> run2.2 /\
  (exists r1 r2, run1.2 = inr r1 /\ run2.2 = inr r2 /\
                 Engine.timestamp r1 = nine_o_clock /\ Engine.timestamp r2 = ten_o_clock).
Proof.
  cbv zeta.
  assert (Hmax : ~ mrn_max_duration_of default_snapshot == 0) by (vm_compute; discriminate).
  rewrite (pass_returns nine_o_clock) by (exact Hmax || reflexivity).
  cbn [fst snd].
  rewrite (pass_returns ten_o_clock) by (exact Hmax || reflexivity).
  cbn [snd]. split.
  - intros H. inversion H.
  - exists (outcome nine_o_clock default_snapshot), (outcome ten_o_clock default_snapshot).
    repeat split.
Qed.

(** C1, as the code has it: with a maximal MRN duration of zero the pass
    raises Python's [ZeroDivisionError] and returns no result; by then it has
    assigned the first five frameworks of the table, and the last two
    ([quantitative_regime] and [us_economic_backdrop]) are as they were. *)
Theorem zero_max_duration_raises now raw t :
  well_configured t ->
  mrn_max_duration_of raw == 0 ->
  exists t',
    Engine.calculate_master_divergence_index now raw t = (t', inl ZeroDivisionError) /\
    well_configured t' /\
    map (fun entry => (Engine.current_level entry.2, Engine.status entry.2)) (take 5 t')
    = take 5 (assigned raw) /\
    drop 5 t' = drop 5 t.
Proof.
  intros Ht Hmax. rewrite pass_raises by assumption.
  exists (half_scored raw t). split; [reflexivity|].
  split; [now apply well_configured_half_scored|].
  known_table Ht. split; reflexivity.
Qed.

Lemma zero_max_duration_raises_witness :
  exists t',
    Engine.calculate_master_divergence_index
      nine_o_clock zero_max_snapshot Engine.contradiction_frameworks
    = (t', inl ZeroDivisionError) /\
    drop 5 t' = drop 5 Engine.contradiction_frameworks.
Proof.
  assert (Hwc : well_configured Engine.contradiction_frameworks) by reflexivity.
  assert (Hmax : mrn_max_duration_of zero_max_snapshot == 0) by (vm_compute; reflexivity).
  destruct (zero_max_duration_raises nine_o_clock zero_max_snapshot
              Engine.contradiction_frameworks Hwc Hmax) as (t' & Hrun & _ & _ & Hdrop).
  exists t'. split; assumption.
Defined.

(** C1, as stated, fails: on a fresh engine and a snapshot whose maximal MRN
    duration is zero, the exception is a [ZeroDivisionError], not a
    DivisionGuard, and the table has changed: [economic_assessment], at level
    0.0 and NORMAL before the call, is at 75.0 and CRITICAL after it. *)
Lemma zero_max_duration_counterexample :
  let t := Engine.contradiction_frameworks in
  let run := Engine.calculate_master_divergence_index nine_o_clock zero_max_snapshot t in
  mrn_max_duration_of zero_max_snapshot == 0 /\
  run.2 = inl ZeroDivisionError /\
  exc_class ZeroDivisionError <> "DivisionGuard"%string /\
  run.1 <> t /\
  level_and_status t "economic_assessment" = Some (0.0, Engine.NORMAL) /\
  level_and_status run.1 "economic_assessment" = Some (75.0, Engine.CRITICAL).
Proof.
  cbv zeta.
  split; [vm_compute; reflexivity|].
  split; [vm_compute; reflexivity|].
  split; [discriminate|].
  split; [vm_compute; discriminate|].
  split; vm_compute; reflexivity.
Qed.

(** * Further properties of the scoring pass *)

Lemma well_configured_threshold t k fw :
  well_configured t -> getitem t k = Some fw -> 0 < Engine.threshold fw.
Proof.
  intros Ht Hk. known_table Ht. cbn in Hk.
  repeat (destruct (String.eqb k _); [injection Hk as <-; reflexivity|]).
  discriminate Hk.
Qed.

Lemma well_configured_threshold_le t k fw :
  well_configured t -> getitem t k = Some fw -> Engine.threshold fw <= 100.
Proof.
  intros Ht Hk. known_table Ht. cbn in Hk.
  repeat (destruct (String.eqb k _); [injection Hk as <-; cbn; discriminate|]).
  discriminate Hk.
Qed.

Lemma contribution_nonneg fw :
  0 <= Engine.weight fw -> 0 <= Engine.threshold fw -> above_threshold fw ->
  0 <= contribution fw.
Proof.
  unfold above_threshold, contribution. intros Hw Ht Hl.
  apply Qmult_le_0_compat; [|exact Hw].
  apply Q.min_glb; [|discriminate].
  apply Qle_shift_div_l; [reflexivity | lra].
Qed.

(** The sum after one level has changed, when the changed framework's share
    of the sum is related by [R]. *)
Lemma weighted_sum_update (R : Q -> Q -> Prop) (t : Engine.frameworks) k fw x y :
  Reflexive R ->
  (forall a b c d, R a b -> R c d -> R (a + c) (b + d)) ->
  getitem t k = Some fw ->
  R (if decide (above_threshold (Engine.set_current_level x fw))
     then contribution (Engine.set_current_level x fw) else 0)
    (if decide (above_threshold (Engine.set_current_level y fw))
     then contribution (Engine.set_current_level y fw) else 0) ->
  (forall a a' b b', a == a' -> b == b' -> R a b -> R a' b') ->
  R (weighted_sum (values (update (Engine.set_current_level x) t k)))
    (weighted_sum (values (update (Engine.set_current_level y) t k))).
Proof.
  intros Hrefl Hplus Hk Hfw Hcompat. induction t as [|[k' v] t IH]; [discriminate Hk|].
  cbn [getitem update] in Hk |- *. destruct (String.eqb k k').
  - injection Hk as ->. unfold values. cbn [map snd].
    eapply Hcompat; [symmetry; apply weighted_sum_cons ..|].
    apply Hplus; [exact Hfw | apply Hrefl].
  - unfold values in *. cbn [map snd].
    eapply Hcompat; [symmetry; apply weighted_sum_cons ..|].
    apply Hplus; [apply Hrefl | now apply IH].
Qed.

(** The master index computed by the loop does not decrease when the level
    of one framework grows, at or below the threshold as well as above it:
    thresholds and weights are positive, so a framework that comes to exceed
    its threshold adds a share that is not negative. *)
Theorem master_index_monotone_everywhere (t : Engine.frameworks) k fw x y :
  well_configured t ->
  getitem t k = Some fw ->
  x <= y ->
  (Engine.score_loop (update (Engine.set_current_level x) t k)).1
  <= (Engine.score_loop (update (Engine.set_current_level y) t k)).1.
Proof.
  intros Ht Hk Hxy. rewrite !score_loop_total.
  pose proof (well_configured_weight t k fw Ht Hk) as Hw.
  pose proof (well_configured_threshold t k fw Ht Hk) as Hth.
  apply (weighted_sum_update Qle t k fw); try assumption.
  - intros a. apply Qle_refl.
  - intros a b c d. apply Qplus_le_compat.
  - destruct (decide (above_threshold (Engine.set_current_level x fw))) as [Hx|Hx].
    + rewrite decide_True by (unfold above_threshold in *; cbn in *; lra).
      apply contribution_mono; [lra | exact Hxy].
    + destruct (decide (above_threshold (Engine.set_current_level y fw))) as [Hy|Hy];
        [|apply Qle_refl].
      apply contribution_nonneg; cbn; try lra. exact Hy.
  - intros a a' b b' Ha Hb H. now rewrite <- Ha, <- Hb.
Qed.

Lemma master_index_monotone_everywhere_witness :
  (Engine.score_loop
     (update (Engine.set_current_level 40) Engine.contradiction_frameworks
             "economic_assessment")).1
  <= (Engine.score_loop
        (update (Engine.set_current_level 75) Engine.contradiction_frameworks
                "economic_assessment")).1.
Proof.
  apply (master_index_monotone_everywhere Engine.contradiction_frameworks
           "economic_assessment"
           (Engine.mkFramework "Economic Assessment vs Reality" 0.0 50.0 0.15 Engine.NORMAL
              "Economic assessments contradicting actual indicator data")).
  - reflexivity.
  - reflexivity.
  - vm_compute. discriminate.
Defined.

(** From a level of 1000 on, the share of a framework is capped at ten times
    its weight: raising the level further leaves the master index as it is. *)
Theorem master_index_saturates (t : Engine.frameworks) k fw x y :
  well_configured t ->
  getitem t k = Some fw ->
  1000 <= x -> 1000 <= y ->
  (Engine.score_loop (update (Engine.set_current_level x) t k)).1
  == (Engine.score_loop (update (Engine.set_current_level y) t k)).1.
Proof.
  intros Ht Hk Hx Hy. rewrite !score_loop_total.
  pose proof (well_configured_threshold_le t k fw Ht Hk) as Hth.
  assert (Hcap : forall z, 1000 <= z -> Qmin (z / 100) 10 == 10).
  { intros z Hz. apply Q.min_r. apply Qle_shift_div_l; [reflexivity | lra]. }
  apply (weighted_sum_update Qeq t k fw); try assumption.
  - intros a. reflexivity.
  - intros a b c d Hab Hcd. now rewrite Hab, Hcd.
  - rewrite !decide_True by (unfold above_threshold; cbn; lra).
    unfold contribution. cbn [Engine.set_current_level Engine.current_level Engine.weight].
    now rewrite !Hcap.
  - intros a a' b b' Ha Hb H. now rewrite <- Ha, <- Hb.
Qed.

Lemma master_index_saturates_witness :
  (Engine.score_loop
     (update (Engine.set_current_level 1000) Engine.contradiction_frameworks
             "global_vs_local")).1
  == (Engine.score_loop
        (update (Engine.set_current_level 6000) Engine.contradiction_frameworks
                "global_vs_local")).1.
Proof.
  apply (master_index_saturates Engine.contradiction_frameworks "global_vs_local"
           (Engine.mkFramework "Global vs Local Sentiment" 0.0 100.0 0.20 Engine.NORMAL
              "Global-local sentiment divergence creating arbitrage opportunities")).
  - reflexivity.
  - reflexivity.
  - vm_compute. discriminate.
  - vm_compute. discriminate.
Defined.

Lemma weighted_sum_scored raw :
  weighted_sum (values (scored raw))
  == (if decide (100 < divergence_pct raw)
      then Qmin (divergence_pct raw / 100) 10 * 0.20 else 0)
     + 0.6158
     + (if decide (75 < duration_pct raw)
        then Qmin (duration_pct raw / 100) 10 * 0.15 else 0).
Proof.
  unfold scored, assigned, table, values.
  cbn [zip_with Engine.contradiction_frameworks map snd Engine.set_status
       Engine.set_current_level Engine.name Engine.threshold Engine.weight
       Engine.implication Engine.current_level].
  rewrite !weighted_sum_cons. unfold weighted_sum, above_threshold, contribution.
  cbn [filter list_filter map Qsum foldr Engine.current_level Engine.threshold Engine.weight
       Engine.set_status Engine.set_current_level].
  repeat match goal with
         | |- context [@decide (?a < ?b) ?d] =>
             rewrite (@decide_True _ (a < b) d) by reflexivity
         end.
  repeat match goal with
         | |- context [Qmin (?c / 100) 10] =>
             lazymatch c with
             | context [raw] => fail
             | _ => let v := eval vm_compute in (Qmin (c / 100) 10) in
                    change (Qmin (c / 100) 10) with v
             end
         end.
  repeat case_decide; try (exfalso; lra); ring.
Qed.

(** The master divergence index of a pass that returns is 0.6158, the share
    of the five constant frameworks, plus the shares of [global_vs_local]
    (at most 2, present above a level of 100) and of [quantitative_regime]
    (at most 1.5, present above a level of 75): it lies between 0.6158 and
    4.1158 on every snapshot. *)
Theorem master_index_bounds now raw t :
  well_configured t ->
  ~ mrn_max_duration_of raw == 0 ->
  exists t' r dv du,
    Engine.calculate_master_divergence_index now raw t = (t', inr r) /\
    level_and_status t' "global_vs_local" = Some dv /\
    level_and_status t' "quantitative_regime" = Some du /\
    Engine.master_divergence_index r
    == (if decide (100 < dv.1) then Qmin (dv.1 / 100) 10 * 0.20 else 0)
       + 0.6158
       + (if decide (75 < du.1) then Qmin (du.1 / 100) 10 * 0.15 else 0) /\
    0.6158 <= Engine.master_divergence_index r <= 4.1158.
Proof.
  intros Ht Hmax. rewrite pass_returns by assumption.
  exists (scored raw), (outcome now raw). do 2 eexists.
  split; [reflexivity|]. split; [reflexivity|]. split; [reflexivity|].
  cbn [outcome Engine.master_divergence_index fst].
  rewrite score_loop_total, weighted_sum_scored.
  split; [reflexivity|].
  assert (Hmin : forall z, 0 <= z -> 0 <= Qmin (z / 100) 10 <= 10).
  { intros z Hz. split; [|apply Q.le_min_r].
    apply Q.min_glb; [|discriminate]. apply Qle_shift_div_l; [reflexivity | lra]. }
  do 2 case_decide;
    repeat match goal with
           | H : _ < ?z |- _ =>
               lazymatch goal with
               | _ : 0 <= Qmin (z / 100) 10 <= 10 |- _ => fail
               | _ => pose proof (Hmin z ltac:(lra))
               end
           end; lra.
Qed.

Lemma master_index_bounds_witness :
  exists t' r dv du,
    Engine.calculate_master_divergence_index
      nine_o_clock default_snapshot Engine.contradiction_frameworks = (t', inr r) /\
    level_and_status t' "global_vs_local" = Some dv /\
    level_and_status t' "quantitative_regime" = Some du /\
    Engine.master_divergence_index r
    == (if decide (100 < dv.1) then Qmin (dv.1 / 100) 10 * 0.20 else 0)
       + 0.6158
       + (if decide (75 < du.1) then Qmin (du.1 / 100) 10 * 0.15 else 0) /\
    0.6158 <= Engine.master_divergence_index r <= 4.1158.
Proof.
  apply (master_index_bounds nine_o_clock default_snapshot Engine.contradiction_frameworks).
  - reflexivity.
  - vm_compute. discriminate.
Defined.

Lemma active_filter (fws : list Engine.ContradictionFramework) :
  filter (fun fw => gt (Engine.current_level fw) (Engine.threshold fw) = true) fws
  = filter above_threshold fws.
Proof.
  induction fws as [|fw fws IH]; [reflexivity|].
  destruct (decide (above_threshold fw)) as [H|H].
  - rewrite (filter_cons_True above_threshold) by exact H.
    rewrite filter_cons_True by (apply gt_true, H). now rewrite IH.
  - rewrite (filter_cons_False above_threshold) by exact H.
    rewrite filter_cons_False by (rewrite gt_true; exact H). exact IH.
Qed.

(** A pass that returns counts seven contradictions, of which between five
    and seven are active: the five constant frameworks are always above their
    thresholds, [global_vs_local] is above a level of 100 and
    [quantitative_regime] above a level of 75.  The summary repeats the two
    sentiment scores read from the snapshot and the level of
    [global_vs_local]. *)
Theorem summary_of_pass now raw t :
  well_configured t ->
  ~ mrn_max_duration_of raw == 0 ->
  exists t' r dv du,
    Engine.calculate_master_divergence_index now raw t = (t', inr r) /\
    level_and_status t' "global_vs_local" = Some dv /\
    level_and_status t' "quantitative_regime" = Some du /\
    Engine.total_contradictions (Engine.summary r) = 7%nat /\
    Engine.active_contradictions (Engine.summary r)
    = (5 + (if decide (100 < dv.1)%Q then 1 else 0)
         + (if decide (75 < du.1)%Q then 1 else 0))%nat /\
    Engine.active_contradictions (Engine.summary r)
    = length (filter above_threshold (values t')) /\
    Engine.global_sentiment (Engine.summary r) = global_sentiment_of raw /\
    Engine.local_sentiment (Engine.summary r) = local_sentiment_of raw /\
    Engine.divergence_percentage (Engine.summary r) = dv.1.
Proof.
  intros Ht Hmax. rewrite pass_returns by assumption.
  exists (scored raw), (outcome now raw). do 2 eexists.
  split; [reflexivity|]. split; [reflexivity|]. split; [reflexivity|].
  split; [reflexivity|].
  cbn [outcome Engine.summary Engine.active_contradictions Engine.global_sentiment
       Engine.local_sentiment Engine.divergence_percentage fst].
  unfold scored, assigned, table, values, above_threshold.
  cbn [zip_with Engine.contradiction_frameworks map snd Engine.set_status
       Engine.set_current_level Engine.name Engine.threshold Engine.weight
       Engine.implication Engine.current_level].
  assert (E1 : gt (divergence_pct raw) 100.0
               = if decide (100 < divergence_pct raw) then true else false).
  { destruct (decide (100 < divergence_pct raw)).
    - apply gt_true. lra.
    - apply gt_false. lra. }
  assert (E2 : gt (duration_pct raw) 75.0
               = if decide (75 < duration_pct raw) then true else false).
  { destruct (decide (75 < duration_pct raw)).
    - apply gt_true. lra.
    - apply gt_false. lra. }
  repeat split.
  - cbn [filter list_filter Engine.current_level Engine.threshold
         Engine.set_status Engine.set_current_level].
    rewrite E1, E2.
    destruct (decide (100 < divergence_pct raw)), (decide (75 < duration_pct raw));
      reflexivity.
  - now rewrite active_filter.
Qed.

Lemma summary_of_pass_witness :
  exists t' r dv du,
    Engine.calculate_master_divergence_index
      nine_o_clock default_snapshot Engine.contradiction_frameworks = (t', inr r) /\
    level_and_status t' "global_vs_local" = Some dv /\
    level_and_status t' "quantitative_regime" = Some du /\
    Engine.total_contradictions (Engine.summary r) = 7%nat /\
    Engine.active_contradictions (Engine.summary r)
    = (5 + (if decide (100 < dv.1)%Q then 1 else 0)
         + (if decide (75 < du.1)%Q then 1 else 0))%nat /\
    Engine.active_contradictions (Engine.summary r)
    = length (filter above_threshold (values t')) /\
    Engine.global_sentiment (Engine.summary r) = global_sentiment_of default_snapshot /\
    Engine.local_sentiment (Engine.summary r) = local_sentiment_of default_snapshot /\
    Engine.divergence_percentage (Engine.summary r) = dv.1.
Proof.
  apply (summary_of_pass nine_o_clock default_snapshot Engine.contradiction_frameworks).
  - reflexivity.
  - vm_compute. discriminate.
Defined.

(** A pass that returns counts five critical frameworks exactly when the
    level of [global_vs_local] is above 1000, and four otherwise:
    [quantitative_regime] and [us_economic_backdrop] are never CRITICAL.  The
    number of opportunities is the number of critical frameworks minus
    three. *)
Theorem critical_count_of_pass now raw t :
  well_configured t ->
  ~ mrn_max_duration_of raw == 0 ->
  exists t' r dv du ub,
    Engine.calculate_master_divergence_index now raw t = (t', inr r) /\
    level_and_status t' "global_vs_local" = Some dv /\
    level_and_status t' "quantitative_regime" = Some du /\
    level_and_status t' "us_economic_backdrop" = Some ub /\
    du.2 <> Engine.CRITICAL /\
    ub.2 <> Engine.CRITICAL /\
    Engine.critical_frameworks r = (if decide (1000 < dv.1)%Q then 5 else 4)%nat /\
    length (Engine.opportunities r) = (Engine.critical_frameworks r - 3)%nat.
Proof.
  intros Ht Hmax. rewrite pass_returns by assumption.
  exists (scored raw), (outcome now raw). do 3 eexists.
  split; [reflexivity|]. split; [reflexivity|]. split; [reflexivity|].
  split; [reflexivity|].
  split; [cbn; destruct (gt (duration_pct raw) 60); discriminate|].
  split; [discriminate|].
  cbn [outcome Engine.critical_frameworks Engine.opportunities fst snd].
  rewrite score_loop_count, critical_among_scored.
  destruct (gt (divergence_pct raw) 1000) eqn:E.
  - apply gt_true in E. rewrite decide_True by exact E. split; reflexivity.
  - apply gt_false in E. rewrite decide_False by (now apply Qle_not_lt). split; reflexivity.
Qed.

Lemma critical_count_of_pass_witness :
  exists t' r dv du ub,
    Engine.calculate_master_divergence_index
      nine_o_clock default_snapshot Engine.contradiction_frameworks = (t', inr r) /\
    level_and_status t' "global_vs_local" = Some dv /\
    level_and_status t' "quantitative_regime" = Some du /\
    level_and_status t' "us_economic_backdrop" = Some ub /\
    du.2 <> Engine.CRITICAL /\
    ub.2 <> Engine.CRITICAL /\
    Engine.critical_frameworks r = (if decide (1000 < dv.1)%Q then 5 else 4)%nat /\
    length (Engine.opportunities r) = (Engine.critical_frameworks r - 3)%nat.
Proof.
  apply (critical_count_of_pass nine_o_clock default_snapshot
           Engine.contradiction_frameworks).
  - reflexivity.
  - vm_compute. discriminate.
Defined.

(** ** The status of [global_vs_local] in terms of the two sentiment scores *)







(** ** What a pass reads and what it leaves alone *)

Lemma metric_lookup (raw : gmap string (gmap string Q)) (source key : string) (dflt : Q) :
  Engine.metric raw source key dflt
  = default dflt (raw !! source ≫= fun d => d !! key).
Proof.
  unfold Engine.metric, dict_get, Engine.source_data.
  destruct (raw !! source) as [d|]; [reflexivity|].
  cbn. now rewrite lookup_empty.
Qed.

Lemma metric_snapshot (g l d m : Q) :
  global_sentiment_of (snapshot g l d m) = g /\
  local_sentiment_of (snapshot g l d m) = l /\
  mrn_duration_of (snapshot g l d m) = d /\
  mrn_max_duration_of (snapshot g l d m) = m.
Proof. repeat split; vm_compute; reflexivity. Qed.

(** A pass depends on [raw_data] only through four numbers: the sentiment
    score of [global_sentiment], the sentiment score of [market_trend], and
    the [mi_duration] and [max_duration] of [nifty_mrn].  Where the source or
    the key is missing, 6.0, 0.09, 14 and 21 stand in; every other entry of
    [raw_data] is ignored. *)
Theorem pass_reads_four_metrics now (raw : gmap string (gmap string Q)) t :
  Engine.calculate_master_divergence_index now raw t
  = Engine.calculate_master_divergence_index now
      (snapshot
         (default 6.0 (raw !! "global_sentiment" ≫= fun d => d !! "sentiment_score"))
         (default 0.09 (raw !! "market_trend" ≫= fun d => d !! "sentiment_score"))
         (default 14 (raw !! "nifty_mrn" ≫= fun d => d !! "mi_duration"))
         (default 21 (raw !! "nifty_mrn" ≫= fun d => d !! "max_duration")))
      t.
Proof.
  rewrite <- !metric_lookup.
  unfold Engine.calculate_master_divergence_index.
  destruct (metric_snapshot (global_sentiment_of raw) (local_sentiment_of raw)
              (mrn_duration_of raw) (mrn_max_duration_of raw)) as (-> & -> & -> & ->).
  reflexivity.
Qed.

Lemma keeps_config_ret {A} (a : A) : keeps_config (mret a).
Proof. intros t. reflexivity. Qed.

Lemma keeps_config_raise {A} (e : exn) : keeps_config (raise (A := A) e).
Proof. intros t. reflexivity. Qed.

Lemma keeps_config_get : keeps_config get.
Proof. intros t. reflexivity. Qed.

Lemma keeps_config_bind {A B} (m : M Engine.frameworks A) (f : A -> M Engine.frameworks B) :
  keeps_config m -> (forall a, keeps_config (f a)) -> keeps_config (m ≫= f).
Proof.
  intros Hm Hf t. unfold mbind, M_bind. specialize (Hm t).
  destruct (m t) as [t' [e|a]]; cbn [fst] in *; [exact Hm|].
  now rewrite Hf.
Qed.

Lemma keeps_config_truediv a b : keeps_config (truediv a b).
Proof.
  unfold truediv. destruct (Qeq_bool b 0);
    [apply keeps_config_raise | apply keeps_config_ret].
Qed.

Lemma update_config (f : Engine.ContradictionFramework -> Engine.ContradictionFramework)
    (t : Engine.frameworks) k :
  (forall e, config (e.1, f e.2) = config e) ->
  map config (update f t k) = map config t.
Proof.
  intros Hf. induction t as [|[k' v] t IH]; [reflexivity|].
  cbn [update]. destruct (String.eqb k k'); cbn [map].
  - f_equal. apply (Hf (k', v)).
  - now rewrite IH.
Qed.

Lemma keeps_config_setattr k f :
  (forall e, config (e.1, f e.2) = config e) -> keeps_config (Engine.setattr k f).
Proof.
  intros Hf t. unfold Engine.setattr. destruct (getitem t k); [|reflexivity].
  now apply update_config.
Qed.

(** No pass changes the static part of the table: on every table, whether
    the pass returns or raises, the keys, their order, and the name,
    threshold, weight and implication of every framework are after the pass
    what they were before it. *)
Theorem pass_keeps_static_configuration now raw t :
  map config (Engine.calculate_master_divergence_index now raw t).1 = map config t.
Proof.
  revert t. change (keeps_config (Engine.calculate_master_divergence_index now raw)).
  unfold Engine.calculate_master_divergence_index.
  repeat first
    [ apply keeps_config_bind; [|intros ?]
    | apply keeps_config_setattr; intros [? []]; reflexivity
    | apply keeps_config_truediv
    | apply keeps_config_ret
    | apply keeps_config_get
    | match goal with
      | |- keeps_config (if ?c then _ else _) => destruct c
      | |- keeps_config (let '(_, _) := ?p in _) => destruct p
      end ].
Qed.

(** * The analysis of [Publish.py] *)

Lemma decide_gt (a b : Q) {A} (x y : A) :
  (if gt a b then x else y) = if decide (b < a) then x else y.
Proof.
  destruct (gt a b) eqn:E.
  - apply gt_true in E. now rewrite decide_True.
  - apply gt_false in E. rewrite decide_False; [reflexivity | now apply Qle_not_lt].
Qed.

Lemma analysis_entries now (raw : Generator.raw_data) :
  let dv := divergence_pct raw in
  let du := mrn_duration_of raw / 21 * 100 in
  exists a,
    Generator.analyze_frameworks now raw tt = (tt, inr a) /\
    Generator.timestamp a = now /\
    entries a
    = [ ("global_vs_local", dv, if gt dv 1000 then "EXTREME" else "HIGH");
        ("economic_assessment", 75.0, "HIGH");
        ("credit_vs_fundamentals", 126.0, "CRITICAL");
        ("sector_intelligence", 114.3, "CRITICAL");
        ("quantitative_regime", du, if gt du 60 then "WARNING" else "NORMAL")
      ]%string /\
    Generator.summary a = Generator.mkSummary 5 2 "CRITICAL" (dv / 1000) /\
    map generator_record (Generator.opportunities a)
    = if gt dv 1000
      then [ ("Global-Local Arbitrage", "Long international, short local", dv,
              "2-8 weeks", "Very High")%string ]
      else [].
Proof.
  intros dv du. subst dv du.
  unfold Generator.analyze_frameworks, divergence_pct, truediv, ne.
  change (Generator.metric raw) with (Engine.metric raw).
  destruct (Qeq_bool (local_sentiment_of raw) 0);
    cbn [negb]; eexists; (split; [reflexivity|]);
    (split; [reflexivity|]); (split; [reflexivity|]);
    cbn [Generator.summary Generator.opportunities];
    unfold values; cbn [map snd];
    repeat match goal with |- context [gt ?a ?b] => destruct (gt a b) end;
    split; reflexivity.
Qed.

(** [analyze_frameworks] returns on every input.  Its five entries are
    [global_vs_local] (EXTREME above a level of 1000, HIGH otherwise, never
    CRITICAL), three constant entries and [quantitative_regime] (the MRN
    duration over 21 days, WARNING above 60).  Exactly two entries are
    CRITICAL, so the summary always counts 5 contradictions and 2 critical
    frameworks and reports the system status CRITICAL; its master divergence
    index is the level of [global_vs_local] over 1000, and the only
    opportunity it can emit is the "Global-Local Arbitrage" record, above a
    level of 1000. *)
Theorem analysis_shape now (raw : Generator.raw_data) :
  let dv := divergence_pct raw in
  let du := mrn_duration_of raw / 21 * 100 in
  exists a,
    Generator.analyze_frameworks now raw tt = (tt, inr a) /\
    Generator.timestamp a = now /\
    entries a
    = [ ("global_vs_local", dv, if decide (1000 < dv) then "EXTREME" else "HIGH");
        ("economic_assessment", 75.0, "HIGH");
        ("credit_vs_fundamentals", 126.0, "CRITICAL");
        ("sector_intelligence", 114.3, "CRITICAL");
        ("quantitative_regime", du, if decide (60 < du) then "WARNING" else "NORMAL")
      ]%string /\
    Generator.summary a = Generator.mkSummary 5 2 "CRITICAL" (dv / 1000) /\
    map generator_record (Generator.opportunities a)
    = if decide (1000 < dv)
      then [ ("Global-Local Arbitrage", "Long international, short local", dv,
              "2-8 weeks", "Very High")%string ]
      else [].
Proof.
  intros dv du.
  destruct (analysis_entries now raw) as (a & Hrun & Hts & Hentries & Hsum & Hopp).
  exists a. rewrite <- !decide_gt. repeat split; assumption.
Qed.

(** The two versions side by side, on one [raw_data].  Every entry of the
    analysis of [Publish.py] other than [quantitative_regime] has the level
    the pass of [publish.py] reports for that framework; the levels of
    [quantitative_regime] agree when the maximal MRN duration is 21.  The
    opportunities of the analysis are the "Global-Local Arbitrage" records of
    the pass, and, although the two rules differ, both system statuses are
    "CRITICAL". *)
Theorem versions_agree now raw t :
  well_configured t ->
  ~ mrn_max_duration_of raw == 0 ->
  exists t' r a q_engine q_generator s,
    Engine.calculate_master_divergence_index now raw t = (t', inr r) /\
    Generator.analyze_frameworks now raw tt = (tt, inr a) /\
    Forall (fun e => e.1.1 = "quantitative_regime"%string \/
                     Engine.level <$> getitem (Engine.result_frameworks r) e.1.1
                     = Some e.1.2)
           (entries a) /\
    Engine.level <$> getitem (Engine.result_frameworks r) "quantitative_regime"
    = Some q_engine /\
    ("quantitative_regime"%string, q_generator, s) ∈ entries a /\
    (mrn_max_duration_of raw == 21 -> q_engine == q_generator) /\
    map generator_record (Generator.opportunities a)
    = map engine_record
        (filter (fun o => Engine.type o = "Global-Local Arbitrage"%string)
                (Engine.opportunities r)) /\
    Engine.system_status r = "CRITICAL"%string /\
    Generator.system_status (Generator.summary a) = "CRITICAL"%string.
Proof.
  intros Ht Hmax. rewrite pass_returns by assumption.
  destruct (analysis_entries now raw) as (a & Hrun & _ & Hentries & Hsum & Hopp).
  exists (scored raw), (outcome now raw), a,
    (duration_pct raw), (mrn_duration_of raw / 21 * 100).
  eexists.
  split; [reflexivity|]. split; [exact Hrun|].
  rewrite Hentries, Hopp, Hsum.
  split.
  { repeat (apply List.Forall_cons;
            [first [right; reflexivity | left; reflexivity]|]).
    apply List.Forall_nil. }
  split; [reflexivity|].
  split; [do 4 apply list_elem_of_further; apply list_elem_of_here|].
  split.
  { intros E. unfold duration_pct. now rewrite E. }
  split.
  { cbn [outcome Engine.opportunities].
    rewrite score_loop_count, critical_among_scored.
    destruct (gt (divergence_pct raw) 1000); reflexivity. }
  split; [|reflexivity].
  cbn [outcome Engine.system_status].
  rewrite score_loop_count, critical_among_scored.
  destruct (gt (divergence_pct raw) 1000); reflexivity.
Qed.

Lemma versions_agree_witness :
  exists t' r a,
    Engine.calculate_master_divergence_index
      nine_o_clock default_snapshot Engine.contradiction_frameworks = (t', inr r) /\
    Generator.analyze_frameworks nine_o_clock default_snapshot tt = (tt, inr a) /\
    map generator_record (Generator.opportunities a)
    = map engine_record
        (filter (fun o => Engine.type o = "Global-Local Arbitrage"%string)
                (Engine.opportunities r)) /\
    Engine.system_status r = Generator.system_status (Generator.summary a).
Proof.
  assert (Hwc : well_configured Engine.contradiction_frameworks) by reflexivity.
  assert (Hmax : ~ mrn_max_duration_of default_snapshot == 0) by (vm_compute; discriminate).
  destruct (versions_agree nine_o_clock default_snapshot
              Engine.contradiction_frameworks Hwc Hmax)
    as (t' & r & a & ? & ? & ? & Hrun & Hrun' & _ & _ & _ & _ & Hopp & Hs & Hs').
  exists t', r, a. repeat split; try assumption. now rewrite Hs, Hs'.
Defined.

(** * Extraction and ingestion *)

Import Extraction.

Lemma first_in_range_ok {A} (ok : A -> bool) search patterns (v : A) :
  first_in_range ok search patterns = Some v -> ok v = true.
Proof.
  induction patterns as [|p rest IH]; [discriminate|]. cbn.
  destruct (search p) as [| |w]; try exact IH.
  destruct (ok w) eqn:E; [|exact IH]. now intros [= <-].
Qed.

Lemma between_spec (lo hi v : Q) : between lo hi v = true <-> lo <= v <= hi.
Proof. unfold between. now rewrite andb_true_iff, !Qle_bool_iff. Qed.

Lemma betweenZ_spec (lo hi v : Z) : betweenZ lo hi v = true <-> (lo <= v <= hi)%Z.
Proof. unfold betweenZ. rewrite andb_true_iff, !Z.leb_le. reflexivity. Qed.

Lemma mrn_duration_in_range s :
  (1 <= mi_duration (extract_nifty_mrn_data s) <= 30)%Z.
Proof.
  destruct s as [[|v]|]; cbn [extract_nifty_mrn_data mi_duration _get_fallback_mrn_data];
    try lia.
  destruct (first_in_range (betweenZ 1 30) (search_int v) duration_patterns)
    as [d|] eqn:E; cbn [default from_option id]; [|lia].
  apply first_in_range_ok in E. now apply betweenZ_spec.
Qed.

Lemma transition_by_duration (d : Z) :
  (1 <= d <= 30)%Z ->
  let pct := inject_Z d / inject_Z 21 * 100 in
  let label := if gt pct 75 then "Very High"
               else if gt pct 60 then "High"
               else if gt pct 40 then "Moderate"
               else "Low" in
  (label = "Very High" <-> 16 <= d)%Z /\
  (label = "High" <-> 13 <= d <= 15)%Z /\
  (label = "Moderate" <-> 9 <= d <= 12)%Z /\
  (label = "Low" <-> d <= 8)%Z.
Proof.
  intros Hd.
  assert (H : exists n : nat, d = Z.of_nat n /\ (n <= 30)%nat)
    by (exists (Z.to_nat d); lia).
  destruct H as (n & -> & Hn).
  do 31 (destruct n as [|n];
         [cbv zeta;
          match goal with
          | |- context [if gt ?p 75 then ?a else ?b] =>
              let v := eval vm_compute in (if gt p 75 then a else b) in
              change (if gt p 75 then a else b) with v
          end;
          repeat split; intros; try discriminate; try lia|]).
  lia.
Qed.

Lemma mrn_transition_rule s :
  let d := extract_nifty_mrn_data s in
  (transition_probability d = "Very High"%string <-> 16 <= mi_duration d)%Z /\
  (transition_probability d = "High"%string <-> 13 <= mi_duration d <= 15)%Z /\
  (transition_probability d = "Moderate"%string <-> 9 <= mi_duration d <= 12)%Z /\
  (transition_probability d = "Low"%string <-> mi_duration d <= 8)%Z.
Proof.
  intros d. pose proof (mrn_duration_in_range s) as Hd. fold d in Hd.
  subst d. destruct s as [[|v]|].
  - cbn. repeat split; intros; try discriminate; try lia.
  - apply (transition_by_duration _ Hd).
  - cbn. repeat split; intros; try discriminate; try lia.
Qed.

(** Whatever the page, [extract_nifty_mrn_data] returns a duration between 1
    and 30 days and the maximal duration 21, and its transition probability
    follows the duration: "Very High" from 16 days on, "High" from 13 to 15,
    "Moderate" from 9 to 12 and "Low" up to 8.  The fallback (14 days,
    "High") obeys the same rule. *)
Theorem mrn_extraction s :
  let d := extract_nifty_mrn_data s in
  (1 <= mi_duration d <= 30)%Z /\
  max_duration d = 21%Z /\
  (transition_probability d = "Very High"%string <-> 16 <= mi_duration d)%Z /\
  (transition_probability d = "High"%string <-> 13 <= mi_duration d <= 15)%Z /\
  (transition_probability d = "Moderate"%string <-> 9 <= mi_duration d <= 12)%Z /\
  (transition_probability d = "Low"%string <-> mi_duration d <= 8)%Z.
Proof.
  intros d. split; [apply mrn_duration_in_range|].
  split; [subst d; destruct s as [[|v]|]; reflexivity|].
  apply mrn_transition_rule.
Qed.

Lemma global_score_bounds s :
  -20 <= global_score (extract_global_sentiment_data s) <= 20.
Proof.
  destruct s as [[|v]|]; cbn [extract_global_sentiment_data global_score
                              _get_fallback_global_data];
    try (split; discriminate).
  destruct (first_in_range (between (-20) 20) (search_float v) sentiment_patterns)
    as [x|] eqn:E; cbn [default from_option id]; [|split; discriminate].
  apply first_in_range_ok in E. now apply between_spec.
Qed.

(** Whatever the page, the sentiment score of [extract_global_sentiment_data]
    lies between -20 and 20: a match out of that range is passed over for
    the next pattern, and 6.0 stands when no pattern gives one in range. *)
Theorem global_sentiment_in_range s :
  -20 <= global_score (extract_global_sentiment_data s) <= 20.
Proof.
  destruct s as [[|v]|]; cbn [extract_global_sentiment_data global_score
                              _get_fallback_global_data];
    try (split; discriminate).
  destruct (first_in_range (between (-20) 20) (search_float v) sentiment_patterns)
    as [x|] eqn:E; cbn [default from_option id]; [|split; discriminate].
  apply first_in_range_ok in E. now apply between_spec.
Qed.

Lemma scan_elements_in_range elements score :
  -10 <= score <= 10 -> -10 <= scan_elements elements score <= 10.
Proof.
  intros Hs. induction elements as [|e rest IH]; [exact Hs|]. cbn [scan_elements].
  destruct (extract_numeric_value e default_pattern) as [x|]; [|exact IH].
  destruct (between (-10) 10 x) eqn:E; [|exact IH]. now apply between_spec.
Qed.

Lemma scan_selectors_in_range v selectors score :
  -10 <= score <= 10 -> -10 <= scan_selectors v selectors score <= 10.
Proof.
  revert score. induction selectors as [|sel rest IH]; intros score Hs; [exact Hs|].
  cbn [scan_selectors].
  pose proof (scan_elements_in_range (select v sel) score Hs) as H.
  destruct (ne (scan_elements (select v sel) score) 0.09); [exact H | now apply IH].
Qed.

Lemma scan_fii_in_range elements flow :
  -100 <= flow <= 100 -> -100 <= scan_fii elements flow <= 100.
Proof.
  intros Hs. induction elements as [|e rest IH]; [exact Hs|]. cbn [scan_fii].
  destruct (extract_percentage e) as [x|]; [|exact IH].
  destruct (between (-100) 100 x) eqn:E; [|exact IH]. now apply between_spec.
Qed.

Lemma trend_sentiment_bounds s :
  -10 <= sentiment_score (extract_market_trend_data s) <= 10.
Proof.
  destruct s as [[|v]|];
    cbn [extract_market_trend_data sentiment_score _get_fallback_trend_data];
    try (split; discriminate).
  apply scan_selectors_in_range. split; discriminate.
Qed.

(** Whatever the page, [extract_market_trend_data] returns a sentiment score
    between -10 and 10 and an FII flow change between -100 and 100. *)
Theorem market_trend_in_range s :
  let d := extract_market_trend_data s in
  -10 <= sentiment_score d <= 10 /\ -100 <= fii_flow_change d <= 100.
Proof.
  destruct s as [[|v]|];
    cbn [extract_market_trend_data sentiment_score fii_flow_change
         _get_fallback_trend_data];
    try (repeat split; discriminate).
  split.
  - apply scan_selectors_in_range. split; discriminate.
  - apply scan_fii_in_range. split; discriminate.
Qed.

Lemma ne_true (a b : Q) : ne a b = true <-> ~ a == b.
Proof. unfold ne. rewrite negb_true_iff. apply Qeq_bool_false. Qed.

Lemma ne_false (a b : Q) : ne a b = false <-> a == b.
Proof. unfold ne. rewrite negb_false_iff. apply Qeq_bool_iff. Qed.

Lemma scan_elements_spec elements score :
  scan_elements elements score
  = default score
      (head (filter (fun x => -10 <= x <= 10)
                    (omap (fun e => extract_numeric_value e default_pattern) elements))).
Proof.
  induction elements as [|e rest IH]; [reflexivity|].
  cbn [scan_elements omap list_omap].
  destruct (extract_numeric_value e default_pattern) as [x|]; [|exact IH].
  destruct (between (-10) 10 x) eqn:E.
  - apply between_spec in E. now rewrite filter_cons_True.
  - rewrite filter_cons_False; [exact IH|].
    intros H. apply between_spec in H. congruence.
Qed.

Lemma scan_selectors_spec v selectors score :
  score == 0.09 ->
  scan_selectors v selectors score == default 0.09 (first_informative v selectors).
Proof.
  revert score. induction selectors as [|sel rest IH]; intros score Hs; [exact Hs|].
  cbn [scan_selectors]. rewrite scan_elements_spec. fold (selector_value v sel).
  unfold first_informative. cbn [omap list_omap].
  destruct (selector_value v sel) as [x|]; cbn [default from_option id].
  - destruct (ne x 0.09) eqn:E.
    + apply ne_true in E. rewrite filter_cons_True by exact E. reflexivity.
    + apply ne_false in E. rewrite filter_cons_False by tauto. now apply IH.
  - apply ne_false in Hs. rewrite Hs. apply IH. now apply ne_false.
Qed.

(** The sentiment score of [extract_market_trend_data] is the first value in
    [-10, 10] found under a selector, taking the selectors in order and
    passing over a selector whose value is 0.09: the search stops only when
    the score has left its initial 0.09, so a page that shows 0.09 first and
    another value under a later selector is read as the later value.  With
    no page, or when nothing else is found, the score is 0.09. *)
Theorem sentiment_search s :
  sentiment_score (extract_market_trend_data s)
  == match s with
     | Some (Soup v) => default 0.09 (first_informative v sentiment_selectors)
     | _ => 0.09
     end.
Proof.
  destruct s as [[|v]|]; try reflexivity.
  cbn [extract_market_trend_data sentiment_score].
  now apply scan_selectors_spec.
Qed.

Example sentiment_search_passes_sentinel :
  sentiment_score (extract_market_trend_data (Some (Soup sentinel_view))) = -2.5.
Proof. vm_compute. reflexivity. Qed.

Lemma known_defaults : Forall (fun s => s ∈ known_stocks)
                         (default_accumulation ++ default_distribution).
Proof. repeat constructor; set_solver. Qed.

Lemma slice_subset {A} (l : list A) i j x : x ∈ slice l i j -> x ∈ l.
Proof.
  unfold slice. intros H. apply (subseteq_take (j - i)) in H.
  now apply (subseteq_drop i) in H.
Qed.

(** Whatever the page, [extract_market_dashboard_data] lists exactly six
    accumulation stocks and between three and six distribution stocks, all
    of them among the twelve known symbols. *)
Theorem dashboard_stock_lists s :
  let d := extract_market_dashboard_data s in
  length (accumulation d) = 6%nat /\
  (3 <= length (distribution d) <= 6)%nat /\
  Forall (fun stock => stock ∈ known_stocks) (accumulation d ++ distribution d).
Proof.
  destruct s as [[|v]|]; cbn zeta;
    try (cbn; split; [reflexivity|]; split; [lia|]; apply known_defaults).
  unfold extract_market_dashboard_data.
  set (found := filter (fun stock => stock ∈ known_stocks) (findall_symbols v)).
  assert (Hknown : forall x, x ∈ found -> x ∈ known_stocks).
  { intros x Hx. now apply list_elem_of_filter in Hx. }
  destruct (Nat.leb_spec 6 (length found)) as [H6|H6].
  - assert (Hslice : forall i j x, x ∈ slice found i j -> x ∈ known_stocks).
    { intros i j x Hx. apply Hknown. now apply (slice_subset found i j). }
    destruct (Nat.leb_spec 12 (length found)) as [H12|H12];
      cbn [accumulation distribution];
      (split; [unfold slice; rewrite length_take, length_drop; lia|]);
      (split; [unfold slice; rewrite length_take, length_drop; lia|]);
      apply Forall_forall; intros x Hx; apply elem_of_app in Hx;
      destruct Hx as [Hx|Hx]; now apply Hslice in Hx.
  - cbn [accumulation distribution]. split; [reflexivity|].
    split; [unfold default_distribution; cbn [length]; lia|].
    apply known_defaults.
Qed.

(** With at least six but fewer than twelve known symbols on the page, the
    distribution list starts with the last three accumulation stocks: those
    three stocks are listed on both sides. *)
Theorem dashboard_lists_overlap v :
  let found := filter (fun stock => stock ∈ known_stocks) (findall_symbols v) in
  let d := extract_market_dashboard_data (Some (Soup v)) in
  (6 <= length found < 12)%nat ->
  take 3 (distribution d) = drop 3 (accumulation d) /\
  length (drop 3 (accumulation d)) = 3%nat.
Proof.
  intros found d [H6 H12]. subst d. unfold extract_market_dashboard_data.
  fold found.
  apply Nat.leb_le in H6. rewrite H6.
  apply Nat.leb_le in H6. apply Nat.leb_gt in H12. rewrite H12.
  apply Nat.leb_gt in H12.
  cbn [accumulation distribution]. unfold slice. cbn [drop Nat.sub].
  rewrite take_take, take_drop_commute. cbn [Nat.min Nat.add].
  split; [reflexivity|]. rewrite length_drop, length_take, length_drop. lia.
Qed.

Lemma dashboard_lists_overlap_witness :
  let d := extract_market_dashboard_data (Some (Soup eight_stocks_view)) in
  take 3 (distribution d) = drop 3 (accumulation d) /\
  length (drop 3 (accumulation d)) = 3%nat.
Proof.
  apply (dashboard_lists_overlap eight_stocks_view).
  vm_compute. lia.
Defined.

(** ** Ingestion *)

Lemma ingest_step_cases methods fs date_str acc source :
  (exists data,
     ingest_step methods fs date_str acc source
     = (<[source.1 := data]> acc.1,
        mkReport (issues acc.2) (warnings acc.2) (S (success_count acc.2)))) \/
  (exists msg,
     ingest_step methods fs date_str acc source
     = (acc.1, mkReport (issues acc.2 ++ [msg]) (warnings acc.2) (success_count acc.2))).
Proof.
  destruct acc as [raw rep], source as [source_id template]. unfold ingest_step.
  destruct (match getitem methods source_id with
            | Some extract => extract _
            | None => inr ∅
            end) as [e|data]; [right | left]; eexists; reflexivity.
Qed.

Lemma ingest_fold methods fs date_str (sources : odict (string * string)) raw rep :
  NoDup (keys sources) ->
  (forall k, k ∈ keys sources -> raw !! k = None) ->
  let res := fold_left (ingest_step methods fs date_str) sources (raw, rep) in
  (success_count res.2 + length (issues res.2)
   = success_count rep + length (issues rep) + length sources)%nat /\
  warnings res.2 = warnings rep /\
  (size res.1 + success_count rep = size raw + success_count res.2)%nat /\
  (forall k, is_Some (res.1 !! k) -> is_Some (raw !! k) \/ k ∈ keys sources).
Proof.
  unfold Engine.raw_data, Engine.source_data in *.
  revert raw rep. induction sources as [|[source_id template] sources IH];
    intros raw rep Hnd Hfresh.
  - cbn. repeat split; try lia. intros k Hk. now left.
  - cbn [keys map fst] in Hnd, Hfresh. apply NoDup_cons in Hnd as [Hnotin Hnd].
    cbn [fold_left].
    destruct (ingest_step_cases methods fs date_str (raw, rep) (source_id, template))
      as [[data ->]|[msg ->]]; cbn [fst snd];
      unfold Engine.raw_data, Engine.source_data in *.
    + destruct (IH (<[source_id := data]> raw)
                  (mkReport (issues rep) (warnings rep) (S (success_count rep)))
                  Hnd) as (H1 & H2 & H3 & H4).
      { intros k Hk. rewrite lookup_insert_ne; [apply Hfresh; now right|].
        intros ->. contradiction. }
      cbn [issues warnings success_count] in H1, H2, H3.
      rewrite map_size_insert_None in H3 by (apply Hfresh; now left).
      cbn [length]. repeat split; try assumption; try lia.
      intros k Hk. destruct (H4 k Hk) as [H|H]; [|right; now right].
      destruct (decide (source_id = k)) as [->|Hne]; [right; now left|].
      rewrite lookup_insert_ne in H by exact Hne. now left.
    + destruct (IH raw (mkReport (issues rep ++ [msg]) (warnings rep) (success_count rep))
                  Hnd) as (H1 & H2 & H3 & H4).
      { intros k Hk. apply Hfresh. now right. }
      cbn [issues warnings success_count] in H1, H2, H3.
      rewrite length_app in H1. cbn [length] in H1 |- *.
      repeat split; try assumption; try lia.
      intros k Hk. destruct (H4 k Hk) as [H|H]; [now left | right; now right].
Qed.

Lemma data_sources_distinct : NoDup (keys data_sources).
Proof. apply NoDup_ListNoDup. repeat constructor; cbn; intuition discriminate. Qed.

(** Whatever the extraction methods do, the loop of [ingest_all_data]
    accounts for each of the nine sources once: a source either adds one to
    [success_count] and gets its entry in [raw_data], or adds one issue and
    gets no entry.  No warning is ever recorded. *)
Theorem ingest_accounting methods fs date_str :
  let res := ingest_with methods fs date_str in
  (success_count res.2 + length (issues res.2) = 9)%nat /\
  size res.1 = success_count res.2 /\
  warnings res.2 = [] /\
  (forall k, is_Some (res.1 !! k) -> k ∈ keys data_sources).
Proof.
  destruct (ingest_fold methods fs date_str data_sources
              (∅ : gmap string (gmap string Q)) (mkReport [] [] 0)
              data_sources_distinct) as (H1 & H2 & H3 & H4).
  { intros k _. apply lookup_empty. }
  cbn [issues warnings success_count length] in H1, H2, H3.
  unfold ingest_with. cbv zeta.
  unfold Engine.raw_data, Engine.source_data in *.
  rewrite map_size_empty in H3.
  repeat split.
  - rewrite H1. reflexivity.
  - lia.
  - exact H2.
  - intros k Hk. destruct (H4 k Hk) as [H|H]; [|exact H].
    rewrite lookup_empty in H. now destruct H.
Qed.

Example ingest_accounting_failure :
  let res := ingest_with [("nifty_mrn"%string, failing_method)] no_files "20250613" in
  success_count res.2 = 8%nat /\
  issues res.2 = ["Failed to process nifty_mrn: no data"%string] /\
  res.1 !! "nifty_mrn"%string = None.
Proof. vm_compute. repeat split. Qed.

Lemma ingest_all_data_explicit fs date_str :
  ingest_all_data fs date_str
  = (<["nifty_mrn"%string :=
         mrn_numbers (extract_nifty_mrn_data (source_page fs date_str "nifty_mrn"))]>
       (<["hyg_credit"%string := ∅]>
          (<["economic_indicators"%string := ∅]>
             (<["global_economic"%string := ∅]>
                (<["global_sentiment"%string :=
                     global_numbers
                       (extract_global_sentiment_data
                          (source_page fs date_str "global_sentiment"))]>
                   (<["sector_sentiment"%string := ∅]>
                      (<["news_dashboard"%string := ∅]>
                         (<["market_dashboard"%string :=
                              dashboard_numbers
                                (extract_market_dashboard_data
                                   (source_page fs date_str "market_dashboard"))]>
                            (<["market_trend"%string :=
                                 trend_numbers
                                   (extract_market_trend_data
                                      (source_page fs date_str "market_trend"))]>
                               ∅)))))))),
     mkReport [] [] 9).
Proof. reflexivity. Qed.

Lemma lookup_sources (a b c d e f g h i : gmap string Q) :
  let raw : gmap string (gmap string Q) :=
    <["nifty_mrn"%string := i]>
      (<["hyg_credit"%string := h]>
         (<["economic_indicators"%string := g]>
            (<["global_economic"%string := f]>
               (<["global_sentiment"%string := e]>
                  (<["sector_sentiment"%string := d]>
                     (<["news_dashboard"%string := c]>
                        (<["market_dashboard"%string := b]>
                           (<["market_trend"%string := a]> ∅)))))))) in
  raw !! "nifty_mrn"%string = Some i /\
  raw !! "global_sentiment"%string = Some e /\
  raw !! "market_trend"%string = Some a /\
  Forall (fun k => is_Some (raw !! k)) (keys data_sources).
Proof.
  cbv zeta.
  split; [|split; [|split]].
  - apply lookup_insert_eq.
  - rewrite !(lookup_insert_ne (M := gmap string)) by discriminate.
    apply lookup_insert_eq.
  - rewrite !(lookup_insert_ne (M := gmap string)) by discriminate.
    apply lookup_insert_eq.
  - cbn [keys data_sources map fst].
    repeat (apply List.Forall_cons;
            [repeat first [ rewrite lookup_insert_eq; eexists; reflexivity
                          | rewrite lookup_insert_ne by discriminate ]|]).
    apply List.Forall_nil.
Qed.

(** [ingest_all_data] of [publish.py] reports all nine sources as processed
    and no issue, whatever files exist: a missing, empty or unreadable file
    makes [parse_html_file] return [None], on which the extraction methods
    return their fallback data, and that counts as a success.  Every source
    has its entry in [raw_data]; the count is never 0, so the "no data
    sources available" exit of [publish_daily] and [publish_weekly] is never
    taken. *)
Theorem ingest_always_succeeds fs date_str :
  let res := ingest_all_data fs date_str in
  success_count res.2 = 9%nat /\
  issues res.2 = [] /\
  warnings res.2 = [] /\
  Forall (fun k => is_Some (res.1 !! k)) (keys data_sources).
Proof.
  rewrite ingest_all_data_explicit. cbn [fst snd success_count issues warnings].
  repeat split. apply lookup_sources.
Qed.

Lemma numbers_lookup (tr : TrendData) (gl : GlobalData) (mr : MrnData) :
  (trend_numbers tr : gmap string Q) !! "sentiment_score"%string = Some (sentiment_score tr) /\
  (global_numbers gl : gmap string Q) !! "sentiment_score"%string = Some (global_score gl) /\
  (mrn_numbers mr : gmap string Q) !! "mi_duration"%string
  = Some (inject_Z (mi_duration mr)) /\
  (mrn_numbers mr : gmap string Q) !! "max_duration"%string
  = Some (inject_Z (max_duration mr)).
Proof.
  unfold trend_numbers, global_numbers, mrn_numbers, optional_entry, Engine.source_data.
  split; [|split; [|split]].
  - apply lookup_insert_eq.
  - destruct (volatility gl), (forecast_7day gl);
      repeat (rewrite lookup_insert_ne by discriminate); apply lookup_insert_eq.
  - apply lookup_insert_eq.
  - rewrite lookup_insert_ne by discriminate. apply lookup_singleton_eq.
Qed.

Lemma ingested_metrics fs date_str :
  let raw := (ingest_all_data fs date_str).1 in
  global_sentiment_of raw
  = global_score (extract_global_sentiment_data (source_page fs date_str "global_sentiment")) /\
  local_sentiment_of raw
  = sentiment_score (extract_market_trend_data (source_page fs date_str "market_trend")) /\
  mrn_duration_of raw
  = inject_Z (mi_duration (extract_nifty_mrn_data (source_page fs date_str "nifty_mrn"))) /\
  mrn_max_duration_of raw = 21.
Proof.
  rewrite ingest_all_data_explicit. cbn [fst].
  unfold Engine.metric, dict_get, Engine.raw_data, Engine.source_data.
  match goal with
  | |- context [<["nifty_mrn"%string := ?i]>
                  (<[_ := ?h]> (<[_ := ?g]> (<[_ := ?f]> (<[_ := ?e]>
                     (<[_ := ?d]> (<[_ := ?c]> (<[_ := ?b]> (<[_ := ?a]> ∅))))))))] =>
      destruct (lookup_sources a b c d e f g h i) as (Hm & Hg & Ht & _)
  end.
  cbv zeta in Hm, Hg, Ht.
  rewrite Hm, Hg, Ht. cbn [default from_option id]. clear Hm Hg Ht.
  destruct (numbers_lookup
              (extract_market_trend_data (source_page fs date_str "market_trend"))
              (extract_global_sentiment_data (source_page fs date_str "global_sentiment"))
              (extract_nifty_mrn_data (source_page fs date_str "nifty_mrn")))
    as (H1 & H2 & H3 & H4).
  rewrite H1, H2, H3, H4. cbn [default from_option id].
  repeat split.
  destruct (source_page fs date_str "nifty_mrn") as [[|v]|]; reflexivity.
Qed.

Lemma duration_pct_above (d : Z) :
  (gt (inject_Z d / 21 * 100) 60 = true <-> (13 <= d)%Z) /\
  (gt (inject_Z d / 21 * 100) 75 = true <-> (16 <= d)%Z).
Proof.
  rewrite !gt_true. unfold Qlt. cbn. split; lia.
Qed.

(** Scoring what was ingested.  Whatever files exist, the pass on the
    [raw_data] of [ingest_all_data] returns a result: the maximal MRN duration
    it reads is always 21, so the MRN division cannot raise.  The sentiment
    scores it reads lie in [-20, 20] and [-10, 10].  The level of
    [quantitative_regime] is the extracted duration over 21 days; its status
    is WARNING from 13 days on, that is exactly when the extracted transition
    probability is "High" or "Very High", and the level is above 75 exactly
    when that probability is "Very High". *)
Theorem scoring_ingested_data fs date_str now t :
  well_configured t ->
  let raw := (ingest_all_data fs date_str).1 in
  let mrn := extract_nifty_mrn_data (source_page fs date_str "nifty_mrn") in
  exists t' r qr,
    Engine.calculate_master_divergence_index now raw t = (t', inr r) /\
    -20 <= global_sentiment_of raw <= 20 /\
    -10 <= local_sentiment_of raw <= 10 /\
    level_and_status t' "quantitative_regime" = Some qr /\
    qr.1 = inject_Z (mi_duration mrn) / 21 * 100 /\
    (qr.2 = Engine.WARNING <-> (13 <= mi_duration mrn)%Z) /\
    (qr.2 = Engine.WARNING
     <-> transition_probability mrn = "High"%string
         \/ transition_probability mrn = "Very High"%string) /\
    (75 < qr.1 <-> transition_probability mrn = "Very High"%string).
Proof.
  intros Ht raw mrn.
  destruct (ingested_metrics fs date_str) as (Hg & Hl & Hd & Hm).
  fold raw in Hg, Hl, Hd, Hm. fold mrn in Hd.
  assert (Hmax : ~ mrn_max_duration_of raw == 0) by (rewrite Hm; discriminate).
  rewrite pass_returns by assumption.
  exists (scored raw), (outcome now raw),
    (inject_Z (mi_duration mrn) / 21 * 100,
     if gt (inject_Z (mi_duration mrn) / 21 * 100) 60
     then Engine.WARNING else Engine.NORMAL).
  split; [reflexivity|].
  split; [rewrite Hg; apply global_score_bounds|].
  split; [rewrite Hl; apply trend_sentiment_bounds|].
  split.
  { unfold scored, assigned, duration_pct. rewrite Hd, Hm. reflexivity. }
  cbn [fst snd]. split; [reflexivity|].
  destruct (duration_pct_above (mi_duration mrn)) as [H60 H75].
  destruct (mrn_transition_rule (source_page fs date_str "nifty_mrn"))
    as (Hvh & Hh & _ & _).
  fold mrn in Hvh, Hh.
  assert (Hw : (if gt (inject_Z (mi_duration mrn) / 21 * 100) 60
                then Engine.WARNING else Engine.NORMAL) = Engine.WARNING
               <-> (13 <= mi_duration mrn)%Z).
  { rewrite <- H60. destruct (gt _ 60); split; congruence. }
  split; [exact Hw|]. split.
  - rewrite Hw, Hvh, Hh. lia.
  - rewrite <- gt_true, H75, Hvh. reflexivity.
Qed.

Lemma scoring_ingested_data_witness :
  let raw := (ingest_all_data (mrn_file_only "20250613") "20250613").1 in
  exists t' r,
    Engine.calculate_master_divergence_index nine_o_clock raw
      Engine.contradiction_frameworks = (t', inr r) /\
    level_and_status t' "quantitative_regime"
    = Some (inject_Z 17 / 21 * 100, Engine.WARNING).
Proof.
  assert (Hwc : well_configured Engine.contradiction_frameworks) by reflexivity.
  destruct (scoring_ingested_data (mrn_file_only "20250613") "20250613" nine_o_clock
              Engine.contradiction_frameworks Hwc)
    as (t' & r & qr & Hrun & _ & _ & Hqr & Hlevel & Hwarn & _).
  exists t', r. split; [exact Hrun|]. rewrite Hqr. f_equal.
  destruct qr as [lv st]. cbn [fst snd] in *. f_equal.
  - rewrite Hlevel. vm_compute. reflexivity.
  - apply Hwarn. vm_compute. discriminate.
Defined.

(** * Ingestion and analysis in [Publish.py] *)

Lemma getitem_None {V} (d : odict V) k : k ∉ keys d -> getitem d k = None.
Proof.
  induction d as [|[k' v] d IH]; [reflexivity|]. cbn [keys map fst getitem].
  intros H. apply not_elem_of_cons in H as [Hne H].
  destruct (String.eqb_spec k k') as [->|_]; [contradiction | now apply IH].
Qed.

Lemma generator_ingest_fold fs date_str (sources : odict (string * string))
    (raw : gmap string (gmap string Q)) rep :
  NoDup (keys sources) ->
  (forall k, k ∈ keys sources -> raw !! k = None) ->
  let res := fold_left (GeneratorIngest.ingest_step fs date_str) sources (raw, rep) in
  (size res.1 + length (GeneratorIngest.issues res.2)
   = size raw + length (GeneratorIngest.issues rep) + length sources)%nat /\
  GeneratorIngest.warnings res.2 = GeneratorIngest.warnings rep /\
  (forall k,
     res.1 !! k
     = match getitem sources k with
       | Some template =>
           GeneratorIngest.extract k
             <$> GeneratorIngest.parse_html_file fs (format_path template date_str)
       | None => raw !! k
       end).
Proof.
  unfold Generator.raw_data in *.
  revert raw rep. induction sources as [|[source_id template] sources IH];
    intros raw rep Hnd Hfresh.
  - cbn [fold_left fst snd length getitem]. split; [lia|]. split; reflexivity.
  - cbn [keys map fst] in Hnd, Hfresh. apply NoDup_cons in Hnd as [Hnotin Hnd].
    cbn [fold_left].
    remember (GeneratorIngest.ingest_step fs date_str (raw, rep) (source_id, template))
      as st eqn:Hst.
    unfold GeneratorIngest.ingest_step in Hst. unfold Generator.raw_data in *.
    destruct (GeneratorIngest.parse_html_file fs (format_path template date_str))
      as [page|] eqn:Hparse; subst st.
    + destruct (IH (<[source_id := GeneratorIngest.extract source_id page]> raw) rep Hnd)
        as (H1 & H2 & H3).
      { intros k Hk. rewrite lookup_insert_ne; [apply Hfresh; now right|].
        intros ->. contradiction. }
      rewrite map_size_insert_None in H1 by (apply Hfresh; now left).
      cbn [length]. split; [lia|]. split; [exact H2|].
      intros k. rewrite H3. cbn [getitem].
      destruct (String.eqb_spec k source_id) as [->|Hne].
      * rewrite (getitem_None sources source_id Hnotin), lookup_insert_eq, Hparse.
        reflexivity.
      * rewrite lookup_insert_ne by congruence. reflexivity.
    + destruct (IH raw (GeneratorIngest.mkReport
                          (GeneratorIngest.issues rep ++ [("Failed to parse " ++ source_id)%string])
                          (GeneratorIngest.warnings rep)) Hnd)
        as (H1 & H2 & H3).
      { intros k Hk. apply Hfresh. now right. }
      cbn [GeneratorIngest.issues GeneratorIngest.warnings] in H1, H2.
      rewrite length_app in H1. cbn [length] in H1 |- *.
      split; [lia|]. split; [exact H2|].
      intros k. rewrite H3. cbn [getitem].
      destruct (String.eqb_spec k source_id) as [->|Hne]; [|reflexivity].
      rewrite (getitem_None sources source_id Hnotin), Hparse.
      apply Hfresh. now left.
Qed.

(** [ingest_all_data] of [Publish.py] accounts for each of the nine sources
    once: a source whose file is parsed gets its entry in [raw_data], the
    others get one issue each and no entry, and no other key is ever added.
    No warning is recorded. *)
Theorem generator_ingest_accounting fs date_str :
  let res := GeneratorIngest.ingest_all_data fs date_str in
  (size res.1 + length (GeneratorIngest.issues res.2) = 9)%nat /\
  GeneratorIngest.warnings res.2 = [] /\
  (forall k,
     res.1 !! k
     = if decide (k ∈ keys data_sources)
       then GeneratorIngest.extract k <$> generator_page fs date_str k
       else None).
Proof.
  destruct (generator_ingest_fold fs date_str data_sources ∅
              (GeneratorIngest.mkReport [] []) data_sources_distinct)
    as (H1 & H2 & H3).
  { intros k _. apply lookup_empty. }
  rewrite map_size_empty in H1. cbn [GeneratorIngest.issues length] in H1.
  unfold GeneratorIngest.ingest_all_data. cbv zeta.
  split; [exact H1|]. split; [exact H2|].
  intros k. rewrite H3. unfold generator_page.
  destruct (decide (k ∈ keys data_sources)) as [Hin|Hout].
  - destruct (getitem data_sources k) as [template|] eqn:E; [reflexivity|].
    exfalso. cbn [keys data_sources map fst] in Hin.
    repeat (apply elem_of_cons in Hin as [->|Hin]; [discriminate E|]).
    now apply elem_of_nil in Hin.
  - rewrite (getitem_None data_sources k Hout). apply lookup_empty.
Qed.

Lemma generator_ingested_lookup fs date_str k :
  ((GeneratorIngest.ingest_all_data fs date_str).1 : gmap string (gmap string Q)) !! k
  = GeneratorIngest.extract k <$> generator_page fs date_str k.
Proof.
  destruct (generator_ingest_fold fs date_str data_sources ∅
              (GeneratorIngest.mkReport [] []) data_sources_distinct)
    as (_ & _ & H3).
  { intros k' _. apply lookup_empty. }
  unfold GeneratorIngest.ingest_all_data. rewrite H3. unfold generator_page.
  destruct (getitem data_sources k); [reflexivity | apply lookup_empty].
Qed.

Lemma generator_ingested_metrics fs date_str :
  let raw := (GeneratorIngest.ingest_all_data fs date_str).1 in
  global_sentiment_of raw = 6.0 /\
  mrn_duration_of raw = 14 /\
  local_sentiment_of raw = generator_local_sentiment fs date_str.
Proof.
  cbv zeta. unfold Engine.metric, dict_get, generator_local_sentiment.
  rewrite !generator_ingested_lookup.
  split; [|split].
  - destruct (generator_page fs date_str "global_sentiment") as [p|]; [|reflexivity].
    reflexivity.
  - destruct (generator_page fs date_str "nifty_mrn") as [p|]; [|reflexivity].
    reflexivity.
  - destruct (generator_page fs date_str "market_trend") as [[|elements]|];
      reflexivity.
Qed.

Lemma generator_scan_in_range elements score :
  -10 <= score <= 10 -> -10 <= GeneratorIngest.scan_elements elements score <= 10.
Proof.
  intros Hs. induction elements as [|e rest IH]; [exact Hs|].
  cbn [GeneratorIngest.scan_elements].
  destruct (GeneratorIngest.extract_numeric_value e default_pattern) as [x|]; [|exact IH].
  destruct (between (-10) 10 x) eqn:E; [|exact IH]. now apply between_spec.
Qed.

(** Analysing what [Publish.py] ingested.  Whatever files exist, the analysis
    of the ingested [raw_data] returns, and the files reach it through one
    number only: the local sentiment, which is the first value between -10
    and 10 among the first three sentiment texts of the market trend page,
    and 0.09 without one.  The global sentiment read is always 6.0 and the
    MRN duration always 14, so [quantitative_regime] is at 14 of 21 days with
    status WARNING on every run. *)
Theorem generator_analysis_of_files fs date_str now :
  let raw := (GeneratorIngest.ingest_all_data fs date_str).1 in
  let l := generator_local_sentiment fs date_str in
  let dv := if ne l 0 then Qabs ((6.0 - l) / l * 100) else 6000 in
  exists a,
    Generator.analyze_frameworks now raw tt = (tt, inr a) /\
    global_sentiment_of raw = 6.0 /\
    local_sentiment_of raw = l /\
    mrn_duration_of raw = 14 /\
    -10 <= l <= 10 /\
    entries a
    = [ ("global_vs_local", dv, if decide (1000 < dv) then "EXTREME" else "HIGH");
        ("economic_assessment", 75.0, "HIGH");
        ("credit_vs_fundamentals", 126.0, "CRITICAL");
        ("sector_intelligence", 114.3, "CRITICAL");
        ("quantitative_regime", 14 / 21 * 100, "WARNING") ]%string.
Proof.
  intros raw l dv.
  destruct (generator_ingested_metrics fs date_str) as (Hg & Hd & Hl).
  fold raw in Hg, Hd, Hl. fold l in Hl.
  destruct (analysis_entries now raw) as (a & Hrun & _ & Hentries & _ & _).
  exists a. split; [exact Hrun|]. split; [exact Hg|]. split; [exact Hl|].
  split; [exact Hd|]. split.
  { subst l. unfold generator_local_sentiment.
    destruct (generator_page fs date_str "market_trend") as [[|elements]|];
      try (split; discriminate).
    apply generator_scan_in_range. split; discriminate. }
  rewrite Hentries. unfold divergence_pct. rewrite Hg, Hl, Hd. fold dv.
  rewrite decide_gt. reflexivity.
Qed.
